(** * HeyGen streaming API: error translation and response normalisation

    A shallow embedding of the FastAPI handlers under [api/streaming/]:
    the request validators, the normalisation of upstream payloads into
    response models, and the [except] chains that turn upstream errors
    into HTTP errors.

    Conventions of the embedding.
    - A Python value coming from the upstream client is a [pyval]; a
      dict is an association list in insertion order, looked up by first
      match.  Floating-point numbers are outside the model.
    - A Python [str] is a Rocq [string] holding its UTF-8 encoding.
      [strip] removes the code points Python counts as whitespace;
      [upper] maps ASCII as Python does and takes the mapping of the
      other code points, which is Unicode's, as a parameter.  A length
      is only ever compared with 1, where bytes and code points
      agree.
    - Code that can raise returns [option]; inside a handler's [try]
      block every exception raised by the handler's own code (KeyError,
      TypeError, AttributeError, pydantic's ValidationError) is an
      instance of none of the HeyGen classes, so [None] is routed to the
      handler's [except Exception] clause.
    - The upstream client is a function from the call made to its
      outcome; a handler returns the list of calls it made together
      with the HTTP result. *)

From Stdlib Require Import ZArith Ascii String List Lia.
From stdpp Require Import base option list strings.

Open Scope string_scope.
Open Scope Z_scope.

Set Warnings "-register-all".

(** ** Python values *)

Inductive pyval : Type :=
  | PNone
  | PBool (b : bool)
  | PInt (z : Z)
  | PStr (s : string)
  | PList (l : list pyval)
  | PDict (d : list (string * pyval)).

(** [d[k]] succeeded / [k in d] for a dict: first binding of the key. *)
Fixpoint dict_lookup (k : string) (d : list (string * pyval)) : option pyval :=
  match d with
  | [] => None
  | (k', v) :: rest => if String.eqb k k' then Some v else dict_lookup k rest
  end.

(** ** Python string built-ins

    A [str] is modelled by its UTF-8 encoding, which is also what a
    Rocq string literal denotes: a code point is one byte below 128, or
    a lead byte followed by continuation bytes. *)

(** A continuation byte of UTF-8: [10xxxxxx]. *)
Definition is_continuation (c : ascii) : bool :=
  let n := nat_of_ascii c in
  ((128 <=? n)%nat && (n <? 192)%nat)%bool.

Definition starts_with_continuation (s : string) : bool :=
  match s with
  | EmptyString => false
  | String c _ => is_continuation c
  end.

(** The code points of a string, in order, each as the string of its
    bytes: a new one starts at every byte that is not a continuation
    byte. *)
Fixpoint codepoints (s : string) : list string :=
  match s with
  | EmptyString => []
  | String c s' =>
      match codepoints s' with
      | h :: t =>
          if starts_with_continuation h then String c h :: t
          else String c EmptyString :: h :: t
      | [] => [String c EmptyString]
      end
  end.

(** The string made of the given code points. *)
Fixpoint join (l : list string) : string :=
  match l with
  | [] => EmptyString
  | g :: t => g ++ join t
  end.

Definition bytes (l : list nat) : string :=
  fold_right (fun n s => String (ascii_of_nat n) s) EmptyString l.

(** The code points for which [str.isspace] holds, the ones
    [str.strip] removes: U+0009..U+000D, U+001C..U+001F, U+0020,
    U+0085, U+00A0, U+1680, U+2000..U+200A, U+2028, U+2029, U+202F,
    U+205F and U+3000. *)
Definition whitespace : list string :=
  map bytes
    [[9]; [10]; [11]; [12]; [13]; [28]; [29]; [30]; [31]; [32];
     [194; 133]; [194; 160]; [225; 154; 128];
     [226; 128; 128]; [226; 128; 129]; [226; 128; 130]; [226; 128; 131];
     [226; 128; 132]; [226; 128; 133]; [226; 128; 134]; [226; 128; 135];
     [226; 128; 136]; [226; 128; 137]; [226; 128; 138];
     [226; 128; 168]; [226; 128; 169]; [226; 128; 175];
     [226; 129; 159]; [227; 128; 128]]%nat.

(** [str.isspace] on one code point. *)
Definition isspace (cp : string) : bool :=
  existsb (String.eqb cp) whitespace.

Fixpoint lstrip_points (l : list string) : list string :=
  match l with
  | [] => []
  | cp :: l' => if isspace cp then lstrip_points l' else l
  end.

Fixpoint rstrip_points (l : list string) : list string :=
  match l with
  | [] => []
  | cp :: l' =>
      match rstrip_points l' with
      | [] => if isspace cp then [] else [cp]
      | r => cp :: r
      end
  end.

(** The code points of [s.strip()]. *)
Definition strip_points (s : string) : list string :=
  rstrip_points (lstrip_points (codepoints s)).

(** [s.strip()] *)
Definition strip (s : string) : string := join (strip_points s).

(** The upper-case mapping of a code point outside ASCII is the
    interpreter's Unicode table, which can give several code points
    and is taken as a parameter. *)
Record unicode_data : Type := {
  upper_of : string -> string
}.

Definition upper_ascii (c : ascii) : ascii :=
  let n := nat_of_ascii c in
  if ((97 <=? n)%nat && (n <=? 122)%nat)%bool then ascii_of_nat (n - 32) else c.

(** The upper-case mapping of one code point: [a]..[z] to [A]..[Z],
    the rest of ASCII unchanged, the others by the table. *)
Definition upper_point (u : unicode_data) (cp : string) : string :=
  match cp with
  | String c EmptyString =>
      if (nat_of_ascii c <? 128)%nat then String (upper_ascii c) EmptyString
      else upper_of u cp
  | _ => upper_of u cp
  end.

(** [s.upper()], code point by code point. *)
Definition upper (u : unicode_data) (s : string) : string :=
  join (map (upper_point u) (codepoints s)).

(** Truthiness of a [str]: [not v] holds exactly for the empty string. *)
Definition str_falsy (v : string) : bool :=
  match v with EmptyString => true | _ => false end.

(** Whether every code point of the string is whitespace. *)
Definition all_space (s : string) : bool := forallb isspace (codepoints s).

Definition first_point (s : string) : option string := head (codepoints s).

Definition last_point (s : string) : option string := last (codepoints s).

(** Whether every byte is below 128. *)
Fixpoint is_ascii (s : string) : bool :=
  match s with
  | EmptyString => true
  | String c s' => (nat_of_ascii c <? 128)%nat && is_ascii s'
  end.

(** [sub in s] for two strings. *)
Fixpoint contains (sub s : string) : bool :=
  String.prefix sub s ||
  match s with
  | EmptyString => false
  | String _ s' => contains sub s'
  end.

(** The characters of a string, as iterating over it yields them. *)
Definition chars (s : string) : list pyval := map PStr (codepoints s).

(** ** Dynamic operations on payload values *)

(** [v.get(k, default)]: only a dict has [.get]; anything else raises
    AttributeError. *)
Definition py_get (v : pyval) (k : string) (default : pyval) : option pyval :=
  match v with
  | PDict d => Some (match dict_lookup k d with Some x => x | None => default end)
  | _ => None
  end.

(** [v.get(k)], whose default is [None]. *)
Definition py_get_none (v : pyval) (k : string) : option pyval := py_get v k PNone.

(** [v[k]] with a string subscript: KeyError on a dict without the key,
    TypeError on every other kind of value. *)
Definition py_getitem (v : pyval) (k : string) : option pyval :=
  match v with
  | PDict d => dict_lookup k d
  | _ => None
  end.

Definition is_str (k : string) (v : pyval) : bool :=
  match v with PStr s => String.eqb s k | _ => false end.

(** [k in v] for a string [k]: key membership on a dict, element
    membership on a list, substring test on a str, TypeError otherwise. *)
Definition py_in (k : string) (v : pyval) : option bool :=
  match v with
  | PDict d => Some (bool_decide (is_Some (dict_lookup k d)))
  | PList l => Some (existsb (is_str k) l)
  | PStr s => Some (contains k s)
  | _ => None
  end.

(** [for x in v]: the elements of a list, the characters of a str, the
    keys of a dict; TypeError otherwise. *)
Definition py_iter (v : pyval) : option (list pyval) :=
  match v with
  | PList l => Some l
  | PStr s => Some (chars s)
  | PDict d => Some (map (fun kv => PStr (fst kv)) d)
  | _ => None
  end.

(** ** pydantic field validation (lax mode)

    pydantic is an external library.  What it does with a value that
    already has the field's type is fixed here; its conversions from a
    [str] to an [int] or a [bool] are taken as parameters. *)

Record lax_coercions : Type := {
  int_of_str : string -> option Z;
  bool_of_str : string -> option bool
}.

Definition validate_str (v : pyval) : option string :=
  match v with PStr s => Some s | _ => None end.

Definition validate_int (lax : lax_coercions) (v : pyval) : option Z :=
  match v with
  | PInt z => Some z
  | PBool b => Some (if b then 1 else 0)
  | PStr s => int_of_str lax s
  | _ => None
  end.

Definition validate_bool (lax : lax_coercions) (v : pyval) : option bool :=
  match v with
  | PBool b => Some b
  | PInt 0 => Some false
  | PInt 1 => Some true
  | PStr s => bool_of_str lax s
  | _ => None
  end.

(** [Optional[T]]: [None] is accepted as it is. *)
Definition validate_optional {A} (f : pyval -> option A) (v : pyval) : option (option A) :=
  match v with
  | PNone => Some None
  | _ => match f v with Some a => Some (Some a) | None => None end
  end.

Definition validate_dict (v : pyval) : option (list (string * pyval)) :=
  match v with PDict d => Some d | _ => None end.

(** ** Upstream errors and HTTP errors *)

(** The classes imported from [_exceptions], and pydantic's
    [ValidationError], which [new_sessions] also names. *)
Inductive exc_class : Type :=
  | AuthenticationError
  | HeyGenAPIError
  | HeyGenValidationError
  | NotFoundError
  | RateLimitError
  | ServerError
  | SessionNotFoundError
  | ValidationError.

(** An exception, as far as a handler observes it: [isinstance(e, C)]
    for each class an [except] clause names, [str(e)], and the
    attributes read with [getattr(e, name, default)]: [None] when the
    exception has no such attribute, and an integer [status_code] when
    it has one.  The class
    hierarchy of [_exceptions] is not fixed by the handlers; it is
    whatever [isinstance] answers. *)
Record exn : Type := {
  isinstance : exc_class -> bool;
  str : string;
  attr_status_code : option Z;
  attr_details : option pyval
}.

Definition HTTP_200_OK := 200.
Definition HTTP_201_CREATED := 201.
Definition HTTP_400_BAD_REQUEST := 400.
Definition HTTP_401_UNAUTHORIZED := 401.
Definition HTTP_404_NOT_FOUND := 404.
Definition HTTP_422_UNPROCESSABLE_ENTITY := 422.
Definition HTTP_429_TOO_MANY_REQUESTS := 429.
Definition HTTP_500_INTERNAL_SERVER_ERROR := 500.

(** fastapi's [HTTPException(status_code=..., detail=...)]. *)
Record HTTPException : Type := {
  status_code : Z;
  detail : pyval
}.

(** [getattr(e, "status_code", HTTP_500_INTERNAL_SERVER_ERROR)] *)
Definition getattr_status_code (e : exn) : Z :=
  match attr_status_code e with
  | Some c => c
  | None => HTTP_500_INTERNAL_SERVER_ERROR
  end.

(** [getattr(e, "details", {})] *)
Definition getattr_details (e : exn) : pyval :=
  match attr_details e with
  | Some d => d
  | None => PDict []
  end.

(** What an awaited upstream call does: return a payload or raise. *)
Inductive outcome : Type :=
  | Returned (response : pyval)
  | Raised (e : exn).

(** What the framework sends for a route: the handler's value with the
    route's success status, the [HTTPException] the handler raised, or
    its own 422 when the request does not validate. *)
Inductive http_result (A : Type) : Type :=
  | Success (status : Z) (body : A)
  | HTTPError (e : HTTPException)
  | RequestValidationError.
Arguments Success {A} status body.
Arguments HTTPError {A} e.
Arguments RequestValidationError {A}.

(** A failure of the handler's own code inside [try] ([None]) is caught
    by the [except Exception] clause, whose error is [unexpected]. *)
Definition or_unexpected {A} (success : Z) (unexpected : HTTPException)
    (r : option A) : http_result A :=
  match r with
  | Some body => Success success body
  | None => HTTPError unexpected
  end.

(** A query parameter declared [Query(default, ge=..., le=...)]: the
    default when the parameter is omitted, a 422 ([None]) when the
    value is out of range. *)
Definition Query (default : Z) (ge le : option Z) (q : option Z) : option Z :=
  match q with
  | None => Some default
  | Some v =>
      if (match ge with Some lo => lo <=? v | None => true end)
         && (match le with Some hi => v <=? hi | None => true end)
      then Some v else None
  end.

(** ** new_sessions.py *)

Module new_sessions.

(** The [except] clauses of [create_streaming_session], in order. *)
Definition create_streaming_session_except (e : exn) : HTTPException :=
  if isinstance e HeyGenValidationError then
    {| status_code := HTTP_400_BAD_REQUEST;
       detail := PDict [("message", PStr (str e)); ("details", getattr_details e)] |}
  else if isinstance e AuthenticationError then
    {| status_code := HTTP_401_UNAUTHORIZED;
       detail := PDict [("message", PStr (str e))] |}
  else if isinstance e NotFoundError then
    {| status_code := HTTP_404_NOT_FOUND;
       detail := PDict [("message", PStr (str e)); ("details", getattr_details e)] |}
  else if isinstance e ValidationError then
    {| status_code := HTTP_422_UNPROCESSABLE_ENTITY;
       detail := PDict [("message", PStr "Validation error"); ("details", PStr (str e))] |}
  else if isinstance e RateLimitError then
    {| status_code := HTTP_429_TOO_MANY_REQUESTS;
       detail := PDict [("message", PStr (str e))] |}
  else if isinstance e ServerError || isinstance e HeyGenAPIError then
    {| status_code := getattr_status_code e;
       detail := PDict [("message", PStr (str e)); ("details", getattr_details e)] |}
  else
    {| status_code := HTTP_500_INTERNAL_SERVER_ERROR;
       detail := PDict [("message", PStr "Internal server error")] |}.

(** [request] stands for the validated [NewSessionRequest] (its
    dump); [validate_new_session_request], of the absent [_requests]
    module, is a parameter: [Some e] when it raises [e]. *)
Definition create_streaming_session
    (validate_new_session_request : pyval -> option exn)
    (heygen_client : pyval -> outcome) (request : pyval)
    : list pyval * http_result pyval :=
  match validate_new_session_request request with
  | Some e => ([], HTTPError (create_streaming_session_except e))
  | None =>
      ([request],
       match heygen_client request with
       | Returned response => Success HTTP_201_CREATED response
       | Raised e => HTTPError (create_streaming_session_except e)
       end)
  end.

End new_sessions.

(** ** start_session.py *)

Module start_session.

Record StartSessionRequest : Type := { session_id : string }.


Definition start_streaming_session_except (request : StartSessionRequest) (e : exn)
    : HTTPException :=
  if isinstance e HeyGenValidationError then
    {| status_code := HTTP_400_BAD_REQUEST;
       detail := PDict [("message", PStr (str e)); ("details", getattr_details e)] |}
  else if isinstance e AuthenticationError then
    {| status_code := HTTP_401_UNAUTHORIZED;
       detail := PDict [("message", PStr (str e))] |}
  else if isinstance e NotFoundError then
    {| status_code := HTTP_404_NOT_FOUND;
       detail := PDict [("message", PStr ("Session not found: " ++ session_id request))] |}
  else if isinstance e RateLimitError then
    {| status_code := HTTP_429_TOO_MANY_REQUESTS;
       detail := PDict [("message", PStr (str e))] |}
  else if isinstance e ServerError || isinstance e HeyGenAPIError then
    {| status_code := getattr_status_code e;
       detail := PDict [("message", PStr (str e)); ("details", getattr_details e)] |}
  else
    {| status_code := HTTP_500_INTERNAL_SERVER_ERROR;
       detail := PDict [("message", PStr "Internal server error")] |}.

Definition start_streaming_session (heygen_client : string -> outcome)
    (request : StartSessionRequest) : list string * http_result pyval :=
  ([session_id request],
   match heygen_client (session_id request) with
   | Returned response => Success HTTP_200_OK response
   | Raised e => HTTPError (start_streaming_session_except request e)
   end).

End start_session.

(** ** close_session.py *)

Module close_session.

Record CloseSessionResponse : Type := { status : string }.

Definition close_session_except (e : exn) : HTTPException :=
  if isinstance e AuthenticationError then
    {| status_code := HTTP_401_UNAUTHORIZED; detail := PStr (str e) |}
  else if isinstance e SessionNotFoundError then
    {| status_code := HTTP_404_NOT_FOUND; detail := PStr (str e) |}
  else if isinstance e RateLimitError then
    {| status_code := HTTP_429_TOO_MANY_REQUESTS; detail := PStr (str e) |}
  else if isinstance e ServerError || isinstance e HeyGenAPIError then
    {| status_code := getattr_status_code e; detail := PStr (str e) |}
  else
    {| status_code := HTTP_500_INTERNAL_SERVER_ERROR;
       detail := PStr "An unexpected error occurred" |}.

Definition unexpected : HTTPException :=
  {| status_code := HTTP_500_INTERNAL_SERVER_ERROR;
     detail := PStr "An unexpected error occurred" |}.

(** [CloseSessionResponse(status=response.get("status", "success"))] *)
Definition build (response : pyval) : option CloseSessionResponse :=
  v ← py_get response "status" (PStr "success");
  s ← validate_str v;
  Some {| status := s |}.

Definition close_session (heygen_client : string -> outcome) (session_id : string)
    : list string * http_result CloseSessionResponse :=
  ([session_id],
   match heygen_client session_id with
   | Returned response => or_unexpected HTTP_200_OK unexpected (build response)
   | Raised e => HTTPError (close_session_except e)
   end).

End close_session.

(** ** keep_alive.py *)

Module keep_alive.

Record KeepAliveResponse : Type := { code : Z; message : string }.

(** [KeepAliveResponse.validate_code] *)
Definition validate_code (v : Z) : option Z :=
  if v <? 0 then None else Some v.

(** [KeepAliveResponse.validate_message] *)
Definition validate_message (v : string) : option string :=
  if str_falsy v || str_falsy (strip v) then None else Some (strip v).

(** [KeepAliveRequest.validate_session_id]; the handler takes
    [session_id] from the path and does not use this model. *)
Definition validate_session_id (v : string) : option string :=
  if str_falsy v || str_falsy (strip v) then None else Some (strip v).

Definition keep_alive_except (e : exn) : HTTPException :=
  if isinstance e AuthenticationError then
    {| status_code := HTTP_401_UNAUTHORIZED; detail := PStr (str e) |}
  else if isinstance e SessionNotFoundError then
    {| status_code := HTTP_404_NOT_FOUND; detail := PStr (str e) |}
  else if isinstance e RateLimitError then
    {| status_code := HTTP_429_TOO_MANY_REQUESTS; detail := PStr (str e) |}
  else if isinstance e ServerError || isinstance e HeyGenAPIError then
    {| status_code := getattr_status_code e; detail := PStr (str e) |}
  else
    {| status_code := HTTP_500_INTERNAL_SERVER_ERROR;
       detail := PStr "An unexpected error occurred" |}.

Definition unexpected : HTTPException :=
  {| status_code := HTTP_500_INTERNAL_SERVER_ERROR;
     detail := PStr "An unexpected error occurred" |}.

Definition build (lax : lax_coercions) (response : pyval) : option KeepAliveResponse :=
  code_v ← py_get response "code" (PInt 0);
  message_v ← py_get response "message" (PStr "Keep-alive signal sent successfully");
  c ← validate_int lax code_v;
  c ← validate_code c;
  m ← validate_str message_v;
  m ← validate_message m;
  Some {| code := c; message := m |}.

Definition keep_alive (lax : lax_coercions) (heygen_client : string -> outcome)
    (session_id : string) : list string * http_result KeepAliveResponse :=
  ([session_id],
   match heygen_client session_id with
   | Returned response => or_unexpected HTTP_200_OK unexpected (build lax response)
   | Raised e => HTTPError (keep_alive_except e)
   end).

End keep_alive.

(** ** interrupt_task.py *)

Module interrupt_task.

Record InterruptTaskResponse : Type := { success : bool; message : string }.

Definition interrupt_task_except (e : exn) : HTTPException :=
  if isinstance e AuthenticationError then
    {| status_code := HTTP_401_UNAUTHORIZED; detail := PStr (str e) |}
  else if isinstance e SessionNotFoundError then
    {| status_code := HTTP_404_NOT_FOUND; detail := PStr (str e) |}
  else if isinstance e RateLimitError then
    {| status_code := HTTP_429_TOO_MANY_REQUESTS; detail := PStr (str e) |}
  else if isinstance e ServerError || isinstance e HeyGenAPIError then
    {| status_code := getattr_status_code e; detail := PStr (str e) |}
  else
    {| status_code := HTTP_500_INTERNAL_SERVER_ERROR;
       detail := PStr "An unexpected error occurred" |}.

(** The awaited value is discarded. *)
Definition interrupt_task (heygen_client : string -> outcome) (session_id : string)
    : list string * http_result InterruptTaskResponse :=
  ([session_id],
   match heygen_client session_id with
   | Returned _ =>
       Success HTTP_200_OK
         {| success := true; message := "Interrupt signal sent successfully" |}
   | Raised e => HTTPError (interrupt_task_except e)
   end).

End interrupt_task.

(** ** create_session_token.py *)

Module create_session_token.

Record CreateTokenRequest : Type := {
  session_id : string;
  expires_in : option Z
}.

(** [CreateTokenRequest.validate_session_id] *)
Definition validate_session_id (v : string) : option string :=
  if str_falsy v || str_falsy (strip v) then None else Some (strip v).

(** Validation of a [CreateTokenRequest]: [expires_in] is
    [Optional[int]] with default [None], [ge=60], [le=86400].  The
    handler below does not take this model. *)
Definition CreateTokenRequest_validate (lax : lax_coercions) (body : pyval)
    : option CreateTokenRequest :=
  d ← validate_dict body;
  sid_v ← dict_lookup "session_id" d;
  sid ← validate_str sid_v;
  sid ← validate_session_id sid;
  exp ← match dict_lookup "expires_in" d with
        | None => Some None
        | Some v => validate_optional (validate_int lax) v
        end;
  match exp with
  | None => Some {| session_id := sid; expires_in := None |}
  | Some n =>
      if (60 <=? n) && (n <=? 86400)
      then Some {| session_id := sid; expires_in := Some n |}
      else None
  end.

Record CreateTokenResponse : Type := {
  token : string;
  error : option (list (string * pyval))
}.

Definition create_session_token_except (e : exn) : HTTPException :=
  if isinstance e AuthenticationError then
    {| status_code := HTTP_401_UNAUTHORIZED; detail := PStr (str e) |}
  else if isinstance e SessionNotFoundError then
    {| status_code := HTTP_404_NOT_FOUND; detail := PStr (str e) |}
  else if isinstance e RateLimitError then
    {| status_code := HTTP_429_TOO_MANY_REQUESTS; detail := PStr (str e) |}
  else if isinstance e ServerError || isinstance e HeyGenAPIError then
    {| status_code := getattr_status_code e; detail := PStr (str e) |}
  else
    {| status_code := HTTP_500_INTERNAL_SERVER_ERROR;
       detail := PStr "An unexpected error occurred" |}.

Definition unexpected : HTTPException :=
  {| status_code := HTTP_500_INTERNAL_SERVER_ERROR;
     detail := PStr "An unexpected error occurred" |}.

(** [CreateTokenResponse(token=response.get("data", {}).get("token", ""),
                         error=response.get("error"))] *)
Definition build (response : pyval) : option CreateTokenResponse :=
  data ← py_get response "data" (PDict []);
  token_v ← py_get data "token" (PStr "");
  error_v ← py_get_none response "error";
  t ← validate_str token_v;
  err ← validate_optional validate_dict error_v;
  Some {| token := t; error := err |}.

(** The handler: [session_id: str], [expires_in: Optional[int] = 3600],
    forwarded to the client as they are. *)
Definition create_session_token
    (heygen_client : string -> option Z -> outcome)
    (session_id : string) (expires_in : option Z)
    : list (string * option Z) * http_result CreateTokenResponse :=
  ([(session_id, expires_in)],
   match heygen_client session_id expires_in with
   | Returned response => or_unexpected HTTP_201_CREATED unexpected (build response)
   | Raised e => HTTPError (create_session_token_except e)
   end).

(** The route: [session_id] from the path, [expires_in] an integer
    query parameter that defaults to 3600 when omitted. *)
Definition route (heygen_client : string -> option Z -> outcome)
    (session_id : string) (expires_in : option Z) :=
  create_session_token heygen_client session_id
    (match expires_in with Some v => Some v | None => Some 3600 end).

End create_session_token.

(** ** send_task.py *)

Module send_task.

Inductive TaskMode : Type := SYNC | ASYNC.
Inductive TaskType : Type := REPEAT | CHAT.

Definition TaskMode_of_value (s : string) : option TaskMode :=
  if String.eqb s "sync" then Some SYNC
  else if String.eqb s "async" then Some ASYNC
  else None.

Definition TaskType_of_value (s : string) : option TaskType :=
  if String.eqb s "repeat" then Some REPEAT
  else if String.eqb s "chat" then Some CHAT
  else None.

Record SendTaskRequest : Type := {
  session_id : string;
  text : string;
  task_mode : TaskMode;
  task_type : TaskType
}.

(** [SendTaskRequest.validate_text] *)
Definition validate_text (v : string) : option string :=
  let stripped := strip v in
  if str_falsy stripped then None else Some stripped.

(** Validation of the request body against [SendTaskRequest]:
    [text] has [min_length=1], then [validate_text]. *)
Definition SendTaskRequest_validate (body : pyval) : option SendTaskRequest :=
  d ← validate_dict body;
  sid_v ← dict_lookup "session_id" d;
  sid ← validate_str sid_v;
  text_v ← dict_lookup "text" d;
  t ← validate_str text_v;
  t ← (if (1 <=? String.length t)%nat then validate_text t else None);
  mode ← match dict_lookup "task_mode" d with
         | None => Some SYNC
         | Some v => s ← validate_str v; TaskMode_of_value s
         end;
  type ← match dict_lookup "task_type" d with
         | None => Some REPEAT
         | Some v => s ← validate_str v; TaskType_of_value s
         end;
  Some {| session_id := sid; text := t; task_mode := mode; task_type := type |}.

(** [request] is only logged by the clauses. *)
Definition send_task_except (e : exn) : HTTPException :=
  if isinstance e HeyGenValidationError then
    {| status_code := HTTP_400_BAD_REQUEST;
       detail := PDict [("message", PStr (str e)); ("details", getattr_details e)] |}
  else if isinstance e AuthenticationError then
    {| status_code := HTTP_401_UNAUTHORIZED;
       detail := PDict [("message", PStr (str e))] |}
  else if isinstance e SessionNotFoundError then
    {| status_code := HTTP_404_NOT_FOUND;
       detail := PDict [("message", PStr (str e))] |}
  else if isinstance e RateLimitError then
    {| status_code := HTTP_429_TOO_MANY_REQUESTS;
       detail := PDict [("message", PStr (str e))] |}
  else if isinstance e ServerError || isinstance e HeyGenAPIError then
    {| status_code := getattr_status_code e;
       detail := PDict [("message", PStr (str e)); ("details", getattr_details e)] |}
  else
    {| status_code := HTTP_500_INTERNAL_SERVER_ERROR;
       detail := PDict [("message", PStr "Internal server error")] |}.

Definition send_task (heygen_client : SendTaskRequest -> outcome)
    (request : SendTaskRequest) : list SendTaskRequest * http_result pyval :=
  ([request],
   match heygen_client request with
   | Returned response => Success HTTP_200_OK response
   | Raised e => HTTPError (send_task_except e)
   end).

(** The route: the body is validated into the request model before
    the handler runs; a body that does not validate is answered 422. *)
Definition route (heygen_client : SendTaskRequest -> outcome) (body : pyval)
    : list SendTaskRequest * http_result pyval :=
  match SendTaskRequest_validate body with
  | Some request => send_task heygen_client request
  | None => ([], RequestValidationError)
  end.

End send_task.

(** ** list_avatars.py *)

Module list_avatars.

Record AvatarInfo : Type := {
  avatar_id : string;
  created_at : Z;
  is_public : bool;
  status : string
}.

(** [AvatarInfo.validate_status] *)
Definition validate_status (u : unicode_data) (v : string) : option string :=
  if str_falsy v || str_falsy (strip v) then None else Some (upper u (strip v)).

(** [AvatarInfo(avatar_id=..., created_at=..., is_public=..., status=...)] *)
Definition AvatarInfo_new (lax : lax_coercions) (u : unicode_data)
    (avatar_id_v created_at_v is_public_v status_v : pyval) : option AvatarInfo :=
  a ← validate_str avatar_id_v;
  c ← validate_int lax created_at_v;
  p ← validate_bool lax is_public_v;
  s ← validate_str status_v;
  s ← validate_status u s;
  Some {| avatar_id := a; created_at := c; is_public := p; status := s |}.

Record ListAvatarsResponse : Type := {
  code : Z;
  message : string;
  data : list AvatarInfo
}.

(** [ListAvatarsResponse.validate_code] *)
Definition validate_code (v : Z) : option Z :=
  if v <? 0 then None else Some v.

(** [ListAvatarsResponse.validate_message] *)
Definition validate_message (v : string) : option string :=
  if str_falsy v || str_falsy (strip v) then None else Some (strip v).

(** One element of the comprehension over [response.get("data", [])]. *)
Definition avatar_item (lax : lax_coercions) (u : unicode_data) (avatar : pyval) : option AvatarInfo :=
  avatar_id_v ← py_get_none avatar "avatar_id";
  created_at_v ← py_get_none avatar "created_at";
  is_public_v ← py_get avatar "is_public" (PBool true);
  status_v ← py_get avatar "status" (PStr "ACTIVE");
  AvatarInfo_new lax u avatar_id_v created_at_v is_public_v status_v.

Definition build (lax : lax_coercions) (u : unicode_data) (response : pyval)
    : option ListAvatarsResponse :=
  code_v ← py_get response "code" (PInt 100);
  message_v ← py_get response "message" (PStr "Success");
  data_v ← py_get response "data" (PList []);
  avatars ← py_iter data_v;
  items ← mapM (avatar_item lax u) avatars;
  c ← validate_int lax code_v;
  c ← validate_code c;
  m ← validate_str message_v;
  m ← validate_message m;
  Some {| code := c; message := m; data := items |}.

Definition list_avatars_except (e : exn) : HTTPException :=
  if isinstance e HeyGenValidationError then
    {| status_code := HTTP_400_BAD_REQUEST;
       detail := PDict [("message", PStr (str e)); ("details", getattr_details e)] |}
  else if isinstance e AuthenticationError then
    {| status_code := HTTP_401_UNAUTHORIZED;
       detail := PDict [("message", PStr (str e))] |}
  else if isinstance e RateLimitError then
    {| status_code := HTTP_429_TOO_MANY_REQUESTS;
       detail := PDict [("message", PStr (str e))] |}
  else if isinstance e ServerError || isinstance e HeyGenAPIError then
    {| status_code := getattr_status_code e;
       detail := PDict [("message", PStr (str e)); ("details", getattr_details e)] |}
  else
    {| status_code := HTTP_500_INTERNAL_SERVER_ERROR;
       detail := PDict [("message", PStr "Internal server error")] |}.

Definition unexpected : HTTPException :=
  {| status_code := HTTP_500_INTERNAL_SERVER_ERROR;
     detail := PDict [("message", PStr "Internal server error")] |}.

Definition list_avatars (lax : lax_coercions) (u : unicode_data)
    (heygen_client : unit -> outcome)
    : list unit * http_result ListAvatarsResponse :=
  ([tt],
   match heygen_client tt with
   | Returned response => or_unexpected HTTP_200_OK unexpected (build lax u response)
   | Raised e => HTTPError (list_avatars_except e)
   end).

End list_avatars.

(** ** list_sessions_active.py *)

Module list_sessions_active.

Record SessionInfo : Type := {
  session_id : string;
  status : string;
  created_at : Z
}.

(** [SessionInfo(session_id=..., created_at=..., status=...)]: the
    model has no validator of its own. *)
Definition SessionInfo_new (lax : lax_coercions)
    (session_id_v created_at_v status_v : pyval) : option SessionInfo :=
  i ← validate_str session_id_v;
  s ← validate_str status_v;
  c ← validate_int lax created_at_v;
  Some {| session_id := i; status := s; created_at := c |}.

Record ListSessionsActiveResponse : Type := {
  code : Z;
  message : string;
  data : list SessionInfo
}.

Definition session_item (lax : lax_coercions) (session : pyval) : option SessionInfo :=
  session_id_v ← py_get_none session "session_id";
  created_at_v ← py_get_none session "created_at";
  status_v ← py_get session "status" (PStr "ACTIVE");
  SessionInfo_new lax session_id_v created_at_v status_v.

Definition build (lax : lax_coercions) (response : pyval)
    : option ListSessionsActiveResponse :=
  code_v ← py_get response "code" (PInt 100);
  message_v ← py_get response "message" (PStr "Success");
  data_v ← py_get response "data" (PList []);
  sessions ← py_iter data_v;
  items ← mapM (session_item lax) sessions;
  c ← validate_int lax code_v;
  m ← validate_str message_v;
  Some {| code := c; message := m; data := items |}.

Definition list_sessions_active_except (e : exn) : HTTPException :=
  if isinstance e HeyGenValidationError then
    {| status_code := HTTP_400_BAD_REQUEST;
       detail := PDict [("message", PStr (str e)); ("details", getattr_details e)] |}
  else if isinstance e AuthenticationError then
    {| status_code := HTTP_401_UNAUTHORIZED;
       detail := PDict [("message", PStr (str e))] |}
  else if isinstance e RateLimitError then
    {| status_code := HTTP_429_TOO_MANY_REQUESTS;
       detail := PDict [("message", PStr (str e))] |}
  else if isinstance e ServerError || isinstance e HeyGenAPIError then
    {| status_code := getattr_status_code e;
       detail := PDict [("message", PStr (str e)); ("details", getattr_details e)] |}
  else
    {| status_code := HTTP_500_INTERNAL_SERVER_ERROR;
       detail := PDict [("message", PStr "Internal server error")] |}.

Definition unexpected : HTTPException :=
  {| status_code := HTTP_500_INTERNAL_SERVER_ERROR;
     detail := PDict [("message", PStr "Internal server error")] |}.

Definition list_sessions_active (lax : lax_coercions) (heygen_client : unit -> outcome)
    : list unit * http_result ListSessionsActiveResponse :=
  ([tt],
   match heygen_client tt with
   | Returned response => or_unexpected HTTP_200_OK unexpected (build lax response)
   | Raised e => HTTPError (list_sessions_active_except e)
   end).

End list_sessions_active.

(** ** list_sessions_history.py *)

Module list_sessions_history.

Record SessionHistoryInfo : Type := {
  session_id : string;
  created_at : Z;
  ended_at : option Z;
  status : string;
  duration_seconds : Z;
  avatar_id : option string;
  voice_name : option string
}.

Definition SessionHistoryInfo_new (lax : lax_coercions)
    (session_id_v created_at_v ended_at_v status_v duration_seconds_v
     avatar_id_v voice_name_v : pyval) : option SessionHistoryInfo :=
  i ← validate_str session_id_v;
  c ← validate_int lax created_at_v;
  e ← validate_optional (validate_int lax) ended_at_v;
  s ← validate_str status_v;
  d ← validate_int lax duration_seconds_v;
  a ← validate_optional validate_str avatar_id_v;
  v ← validate_optional validate_str voice_name_v;
  Some {| session_id := i; created_at := c; ended_at := e; status := s;
          duration_seconds := d; avatar_id := a; voice_name := v |}.

Record PaginationInfo : Type := {
  total : Z;
  limit : Z;
  offset : Z;
  has_more : bool
}.

Record ListSessionsHistoryResponse : Type := {
  code : Z;
  message : string;
  data : list SessionHistoryInfo;
  pagination : PaginationInfo
}.

(** The condition of the comprehension:
    ["session_id" in session and "created_at" in session]. *)
Definition keeps (session : pyval) : option bool :=
  has_id ← py_in "session_id" session;
  if (has_id : bool) then py_in "created_at" session else Some false.

(** The element expression of the comprehension. *)
Definition history_item (lax : lax_coercions) (session : pyval)
    : option SessionHistoryInfo :=
  session_id_v ← py_getitem session "session_id";
  created_at_v ← py_getitem session "created_at";
  ended_at_v ← py_get_none session "ended_at";
  status_v ← py_get session "status" (PStr "COMPLETED");
  duration_seconds_v ← py_get session "duration_seconds" (PInt 0);
  avatar_id_v ← py_get_none session "avatar_id";
  voice_name_v ← py_get_none session "voice_name";
  SessionHistoryInfo_new lax session_id_v created_at_v ended_at_v status_v
    duration_seconds_v avatar_id_v voice_name_v.

(** [[history_item(s) for s in sessions if keeps(s)]] *)
Fixpoint comprehension (lax : lax_coercions) (sessions : list pyval)
    : option (list SessionHistoryInfo) :=
  match sessions with
  | [] => Some []
  | session :: rest =>
      keep ← keeps session;
      if (keep : bool) then
        item ← history_item lax session;
        items ← comprehension lax rest;
        Some (item :: items)
      else comprehension lax rest
  end.

Definition build (lax : lax_coercions) (response : pyval) (limit offset : Z)
    : option ListSessionsHistoryResponse :=
  code_v ← py_get response "code" (PInt 100);
  message_v ← py_get response "message" (PStr "Success");
  data_v ← py_get response "data" (PList []);
  sessions ← py_iter data_v;
  items ← comprehension lax sessions;
  pagination_v ← py_get response "pagination" (PDict []);
  total_v ← py_get pagination_v "total" (PInt 0);
  has_more_v ← py_get pagination_v "has_more" (PBool false);
  t ← validate_int lax total_v;
  h ← validate_bool lax has_more_v;
  c ← validate_int lax code_v;
  m ← validate_str message_v;
  Some {| code := c; message := m; data := items;
          pagination := {| total := t; limit := limit; offset := offset;
                           has_more := h |} |}.

Definition list_sessions_history_except (e : exn) : HTTPException :=
  if isinstance e HeyGenValidationError then
    {| status_code := HTTP_400_BAD_REQUEST;
       detail := PDict [("message", PStr (str e)); ("details", getattr_details e)] |}
  else if isinstance e AuthenticationError then
    {| status_code := HTTP_401_UNAUTHORIZED;
       detail := PDict [("message", PStr (str e))] |}
  else if isinstance e RateLimitError then
    {| status_code := HTTP_429_TOO_MANY_REQUESTS;
       detail := PDict [("message", PStr (str e))] |}
  else if isinstance e ServerError || isinstance e HeyGenAPIError then
    {| status_code := getattr_status_code e;
       detail := PDict [("message", PStr (str e)); ("details", getattr_details e)] |}
  else
    {| status_code := HTTP_500_INTERNAL_SERVER_ERROR;
       detail := PDict [("message", PStr "Internal server error")] |}.

Definition unexpected : HTTPException :=
  {| status_code := HTTP_500_INTERNAL_SERVER_ERROR;
     detail := PDict [("message", PStr "Internal server error")] |}.

(** The arguments of the upstream call. *)
Record history_call : Type := {
  call_start_time : option Z;
  call_end_time : option Z;
  call_limit : Z;
  call_offset : Z
}.

Definition list_sessions_history (lax : lax_coercions)
    (heygen_client : history_call -> outcome)
    (start_time end_time : option Z) (limit offset : Z)
    : list history_call * http_result ListSessionsHistoryResponse :=
  let c := {| call_start_time := start_time; call_end_time := end_time;
              call_limit := limit; call_offset := offset |} in
  ([c],
   match heygen_client c with
   | Returned response =>
       or_unexpected HTTP_200_OK unexpected (build lax response limit offset)
   | Raised e => HTTPError (list_sessions_history_except e)
   end).

(** The route: [limit = Query(10, ge=1, le=100)],
    [offset = Query(0, ge=0)], [start_time] and [end_time] optional. *)
Definition route (lax : lax_coercions) (heygen_client : history_call -> outcome)
    (start_time end_time limit offset : option Z)
    : list history_call * http_result ListSessionsHistoryResponse :=
  match Query 10 (Some 1) (Some 100) limit, Query 0 (Some 0) None offset with
  | Some l, Some o => list_sessions_history lax heygen_client start_time end_time l o
  | _, _ => ([], RequestValidationError)
  end.

End list_sessions_history.

(** ** The handlers side by side *)

Inductive handler : Type :=
  | H_create_streaming_session
  | H_start_streaming_session
  | H_close_session
  | H_keep_alive
  | H_interrupt_task
  | H_create_session_token
  | H_send_task
  | H_list_avatars
  | H_list_sessions_active
  | H_list_sessions_history.

(** One call of a handler, with the arguments the framework passes. *)
Inductive invocation : Type :=
  | I_create_streaming_session (validate_new_session_request : pyval -> option exn)
      (request : pyval)
  | I_start_streaming_session (request : start_session.StartSessionRequest)
  | I_close_session (session_id : string)
  | I_keep_alive (lax : lax_coercions) (session_id : string)
  | I_interrupt_task (session_id : string)
  | I_create_session_token (session_id : string) (expires_in : option Z)
  | I_send_task (request : send_task.SendTaskRequest)
  | I_list_avatars (lax : lax_coercions) (u : unicode_data)
  | I_list_sessions_active (lax : lax_coercions)
  | I_list_sessions_history (lax : lax_coercions) (start_time end_time : option Z)
      (limit offset : Z).

Definition handler_of (i : invocation) : handler :=
  match i with
  | I_create_streaming_session _ _ => H_create_streaming_session
  | I_start_streaming_session _ => H_start_streaming_session
  | I_close_session _ => H_close_session
  | I_keep_alive _ _ => H_keep_alive
  | I_interrupt_task _ => H_interrupt_task
  | I_create_session_token _ _ => H_create_session_token
  | I_send_task _ => H_send_task
  | I_list_avatars _ _ => H_list_avatars
  | I_list_sessions_active _ => H_list_sessions_active
  | I_list_sessions_history _ _ _ _ _ => H_list_sessions_history
  end.

Definition http_error {A} (r : http_result A) : option HTTPException :=
  match r with
  | HTTPError e => Some e
  | _ => None
  end.

(** The [HTTPException] a handler raises, if any, when its upstream
    call has the given outcome. *)
Definition raises (i : invocation) (upstream : outcome) : option HTTPException :=
  match i with
  | I_create_streaming_session validate request =>
      http_error (snd (new_sessions.create_streaming_session validate
                         (fun _ => upstream) request))
  | I_start_streaming_session request =>
      http_error (snd (start_session.start_streaming_session (fun _ => upstream) request))
  | I_close_session session_id =>
      http_error (snd (close_session.close_session (fun _ => upstream) session_id))
  | I_keep_alive lax session_id =>
      http_error (snd (keep_alive.keep_alive lax (fun _ => upstream) session_id))
  | I_interrupt_task session_id =>
      http_error (snd (interrupt_task.interrupt_task (fun _ => upstream) session_id))
  | I_create_session_token session_id expires_in =>
      http_error (snd (create_session_token.create_session_token
                         (fun _ _ => upstream) session_id expires_in))
  | I_send_task request =>
      http_error (snd (send_task.send_task (fun _ => upstream) request))
  | I_list_avatars lax u =>
      http_error (snd (list_avatars.list_avatars lax u (fun _ => upstream)))
  | I_list_sessions_active lax =>
      http_error (snd (list_sessions_active.list_sessions_active lax (fun _ => upstream)))
  | I_list_sessions_history lax start_time end_time limit offset =>
      http_error (snd (list_sessions_history.list_sessions_history lax
                         (fun _ => upstream) start_time end_time limit offset))
  end.

(** Whether the handler gets as far as its upstream call: only
    [create_streaming_session] runs code that can raise before it. *)
Definition reaches_upstream (i : invocation) : bool :=
  match i with
  | I_create_streaming_session validate request =>
      match validate request with None => true | Some _ => false end
  | _ => true
  end.

(** The classes each handler's [except] clauses name, in the order of
    the clauses. *)
Definition clauses (h : handler) : list exc_class :=
  match h with
  | H_create_streaming_session =>
      [HeyGenValidationError; AuthenticationError; NotFoundError; ValidationError;
       RateLimitError; ServerError; HeyGenAPIError]
  | H_start_streaming_session =>
      [HeyGenValidationError; AuthenticationError; NotFoundError; RateLimitError;
       ServerError; HeyGenAPIError]
  | H_send_task =>
      [HeyGenValidationError; AuthenticationError; SessionNotFoundError; RateLimitError;
       ServerError; HeyGenAPIError]
  | H_close_session | H_keep_alive | H_interrupt_task | H_create_session_token =>
      [AuthenticationError; SessionNotFoundError; RateLimitError;
       ServerError; HeyGenAPIError]
  | H_list_avatars | H_list_sessions_active | H_list_sessions_history =>
      [HeyGenValidationError; AuthenticationError; RateLimitError;
       ServerError; HeyGenAPIError]
  end.

(** The clause Python selects: the first whose class the exception is
    an instance of. *)
Definition first_match (cs : list exc_class) (e : exn) : option exc_class :=
  List.find (isinstance e) cs.

(** The status table of the specification (section 4.1), with 422 for
    local schema validation (section 4.2). *)
Definition table_status (k : exc_class) (e : exn) : Z :=
  match k with
  | AuthenticationError => 401
  | SessionNotFoundError | NotFoundError => 404
  | HeyGenValidationError => 400
  | RateLimitError => 429
  | ServerError | HeyGenAPIError =>
      match attr_status_code e with Some c => c | None => 500 end
  | ValidationError => 422
  end.

(** The handlers whose [HTTPException]s carry a dict. *)
Definition structured_handler (h : handler) : bool :=
  match h with
  | H_close_session | H_keep_alive | H_interrupt_task | H_create_session_token => false
  | _ => true
  end.

(** The shape [{message: string, details?: ...}]. *)
Definition structured_detail (v : pyval) : bool :=
  match v with
  | PDict d =>
      match dict_lookup "message" d with Some (PStr _) => true | _ => false end
      && forallb (fun kv => String.eqb (fst kv) "message" || String.eqb (fst kv) "details") d
  | _ => false
  end.

(** The [message] of an error body, when it has one. *)
Definition body_message (v : pyval) : option string :=
  match v with
  | PDict d => match dict_lookup "message" d with Some (PStr s) => Some s | _ => None end
  | _ => None
  end.

(** The error text a handler sends: the [message] of a dict, or the
    bare string. *)
Definition error_text (v : pyval) : option string :=
  match v with
  | PStr s => Some s
  | _ => body_message v
  end.

(** The [error] of the response for a payload's ["error"] value:
    absent, [None] or a dict. *)
Definition error_of_payload (d : list (string * pyval))
    : option (option (list (string * pyval))) :=
  match dict_lookup "error" d with
  | None | Some PNone => Some None
  | Some (PDict m) => Some (Some m)
  | Some _ => None
  end.

(** The entries a list handler iterates over:
    [response.get("data", [])]. *)
Definition payload_entries (response : pyval) : option (list pyval) :=
  data_v ← py_get response "data" (PList []);
  py_iter data_v.

(** [entry.get("status", default)] for a dict entry. *)
Definition status_or (default : string) (d : list (string * pyval)) : pyval :=
  match dict_lookup "status" d with Some v => v | None => PStr default end.

(** A history entry as the upstream service documents it: a dict with a
    string ["session_id"], an integer ["created_at"], and, when present,
    an integer or null ["ended_at"], a string ["status"], an integer
    ["duration_seconds"], string or null ["avatar_id"] and
    ["voice_name"]. *)
Definition well_formed_history_entry (v : pyval) : bool :=
  match v with
  | PDict d =>
      match dict_lookup "session_id" d with Some (PStr _) => true | _ => false end
      && match dict_lookup "created_at" d with Some (PInt _) => true | _ => false end
      && match dict_lookup "ended_at" d with
         | None | Some PNone | Some (PInt _) => true
         | _ => false
         end
      && match dict_lookup "status" d with None | Some (PStr _) => true | _ => false end
      && match dict_lookup "duration_seconds" d with
         | None | Some (PInt _) => true
         | _ => false
         end
      && match dict_lookup "avatar_id" d with
         | None | Some PNone | Some (PStr _) => true
         | _ => false
         end
      && match dict_lookup "voice_name" d with
         | None | Some PNone | Some (PStr _) => true
         | _ => false
         end
  | _ => false
  end.

(** The envelope of a history payload, apart from ["data"]: an integer
    ["code"], a string ["message"] and a dict ["pagination"] with an
    integer ["total"] and a boolean ["has_more"], each of them
    optional. *)
Definition well_formed_history_envelope (d : list (string * pyval)) : bool :=
  match dict_lookup "code" d with None | Some (PInt _) => true | _ => false end
  && match dict_lookup "message" d with None | Some (PStr _) => true | _ => false end
  && match dict_lookup "pagination" d with
     | None => true
     | Some (PDict p) =>
         match dict_lookup "total" p with None | Some (PInt _) => true | _ => false end
         && match dict_lookup "has_more" p with
            | None | Some (PBool _) => true
            | _ => false
            end
     | Some _ => false
     end.

(** The shape of the lists [codepoints] returns: every element is a
    byte followed by continuation bytes, and every element but the
    first starts with a byte that is not one. *)
Fixpoint all_continuation (s : string) : bool :=
  match s with
  | EmptyString => true
  | String c s' => is_continuation c && all_continuation s'
  end.

Definition is_group (g : string) : bool :=
  match g with
  | EmptyString => false
  | String _ r => all_continuation r
  end.

Fixpoint grouped_tail (l : list string) : bool :=
  match l with
  | [] => true
  | g :: t => is_group g && negb (starts_with_continuation g) && grouped_tail t
  end.

Definition grouped (l : list string) : bool :=
  match l with
  | [] => true
  | g :: t => is_group g && grouped_tail t
  end.

(** A table that leaves the code points outside ASCII as they are, but
    for U+00DF, which it maps to [SS] as Unicode does; used to run
    examples. *)
Definition sample_unicode : unicode_data :=
  {| upper_of := fun cp => if String.eqb cp (bytes [195; 159]%nat) then "SS" else cp |}.




(** What the response model makes of the envelope of a history
    payload: the validated code, message, total and has_more, or
    [None] when one of them does not fit the model. *)
Definition history_envelope (lax : lax_coercions) (d : list (string * pyval))
    : option (Z * string * Z * bool) :=
  pagination_v ← py_get (PDict d) "pagination" (PDict []);
  total_v ← py_get pagination_v "total" (PInt 0);
  has_more_v ← py_get pagination_v "has_more" (PBool false);
  t ← validate_int lax total_v;
  h ← validate_bool lax has_more_v;
  code_v ← py_get (PDict d) "code" (PInt 100);
  message_v ← py_get (PDict d) "message" (PStr "Success");
  c ← validate_int lax code_v;
  m ← validate_str message_v;
  Some (c, m, t, h).


(** A pydantic that converts no [str]; used to run examples. *)
Definition no_coercion : lax_coercions :=
  {| int_of_str := fun _ => None; bool_of_str := fun _ => None |}.

(** An exception of exactly one class, for examples. *)
Definition exn_of (k : exc_class) (text : string) : exn :=
  {| isinstance := fun c => match k, c with
                            | AuthenticationError, AuthenticationError
                            | HeyGenAPIError, HeyGenAPIError
                            | HeyGenValidationError, HeyGenValidationError
                            | NotFoundError, NotFoundError
                            | RateLimitError, RateLimitError
                            | ServerError, ServerError
                            | SessionNotFoundError, SessionNotFoundError
                            | ValidationError, ValidationError => true
                            | _, _ => false
                            end;
     str := text;
     attr_status_code := None;
     attr_details := None |}.

(** The fixed error of a handler's [except Exception] clause. *)
Definition generic_error (h : handler) : HTTPException :=
  if structured_handler h
  then {| status_code := HTTP_500_INTERNAL_SERVER_ERROR;
          detail := PDict [("message", PStr "Internal server error")] |}
  else {| status_code := HTTP_500_INTERNAL_SERVER_ERROR;
          detail := PStr "An unexpected error occurred" |}.

(** The handlers that build a response model from the upstream payload;
    the others return the payload, or a constant. *)
Definition normalises (h : handler) : bool :=
  match h with
  | H_create_streaming_session | H_start_streaming_session | H_send_task
  | H_interrupt_task => false
  | _ => true
  end.

Definition is_dict (v : pyval) : bool :=
  match v with PDict _ => true | _ => false end.

(** For a dict entry, the condition of the history comprehension. *)
Definition has_required_keys (v : pyval) : bool :=
  match v with
  | PDict d =>
      bool_decide (is_Some (dict_lookup "session_id" d))
      && bool_decide (is_Some (dict_lookup "created_at" d))
  | _ => false
  end.

(** * Properties *)

(** ** [strip] and [upper] *)

Section StringFacts.

Lemma append_empty_r (s : string) : s ++ "" = s.
Proof.
  induction s as [|c s IH]; [reflexivity|].
  change (String c (s ++ "") = String c s). rewrite IH. reflexivity.
Qed.

Lemma append_assoc (a b c : string) : (a ++ b) ++ c = a ++ (b ++ c).
Proof.
  induction a as [|x a IH]; [reflexivity|].
  change (String x ((a ++ b) ++ c) = String x (a ++ (b ++ c))). rewrite IH. reflexivity.
Qed.

Lemma join_app (l k : list string) : join (l ++ k) = join l ++ join k.
Proof.
  induction l as [|g l IH]; [reflexivity|].
  change (g ++ join (l ++ k) = (g ++ join l) ++ join k).
  rewrite IH, append_assoc. reflexivity.
Qed.

(** Splitting a string into code points loses nothing. *)
Lemma join_codepoints (s : string) : join (codepoints s) = s.
Proof.
  induction s as [|c s IH]; [reflexivity|]. simpl.
  destruct (codepoints s) as [|h t]; simpl in IH |- *.
  - rewrite <- IH. reflexivity.
  - destruct (starts_with_continuation h); rewrite <- IH; reflexivity.
Qed.

Lemma codepoints_nil (s : string) : codepoints s = [] -> s = "".
Proof.
  destruct s as [|c s]; [reflexivity|]. simpl.
  destruct (codepoints s) as [|h t]; [discriminate|].
  destruct (starts_with_continuation h); discriminate.
Qed.

(** The first code point starts with the first byte. *)
Lemma codepoints_head (s : string) (h : string) (t : list string) :
  codepoints s = h :: t -> starts_with_continuation h = starts_with_continuation s.
Proof.
  destruct s as [|c s]; [discriminate|]. simpl.
  destruct (codepoints s) as [|h' t']; [intros [= <- _]; reflexivity|].
  destruct (starts_with_continuation h'); intros [= <- _]; reflexivity.
Qed.

Lemma grouped_tail_grouped (l : list string) : grouped_tail l = true -> grouped l = true.
Proof.
  destruct l as [|g t]; [reflexivity|]. simpl.
  intros H. apply andb_prop in H as [H Ht]. apply andb_prop in H as [Hg _].
  rewrite Hg, Ht. reflexivity.
Qed.

Lemma codepoints_grouped (s : string) : grouped (codepoints s) = true.
Proof.
  induction s as [|c s IH]; [reflexivity|]. simpl.
  destruct (codepoints s) as [|h t]; [reflexivity|].
  simpl in IH. apply andb_prop in IH as [Hh Ht].
  destruct (starts_with_continuation h) eqn:Hc; simpl.
  - rewrite Ht, andb_true_r.
    destruct h as [|x r]; [discriminate|]. simpl in *. rewrite Hc, Hh. reflexivity.
  - rewrite Hh, Hc, Ht. reflexivity.
Qed.

Lemma codepoints_group_append (g rest : string) :
  is_group g = true -> starts_with_continuation rest = false ->
  codepoints (g ++ rest) = g :: codepoints rest.
Proof.
  destruct g as [|c r]; [discriminate|]. simpl. revert c.
  induction r as [|x r IH]; intros c Hr Hrest.
  - change (codepoints (String c rest) = String c "" :: codepoints rest). simpl.
    destruct (codepoints rest) as [|h t] eqn:Hcp; [reflexivity|].
    rewrite (codepoints_head _ _ _ Hcp), Hrest. reflexivity.
  - simpl in Hr. apply andb_prop in Hr as [Hx Hr].
    change (codepoints (String c (String x r ++ rest))
            = String c (String x r) :: codepoints rest).
    simpl. change (String x (r ++ rest)) with (String x r ++ rest).
    rewrite (IH x Hr Hrest). simpl. rewrite Hx. reflexivity.
Qed.

Lemma grouped_tail_join_start (l : list string) :
  grouped_tail l = true -> starts_with_continuation (join l) = false.
Proof.
  destruct l as [|g t]; [reflexivity|]. simpl. intros H.
  apply andb_prop in H as [H _]. apply andb_prop in H as [Hg Hs].
  destruct g as [|c r]; [discriminate|].
  apply negb_true_iff in Hs. exact Hs.
Qed.

(** Joining code points and splitting again gives them back. *)
Lemma codepoints_join (l : list string) : grouped l = true -> codepoints (join l) = l.
Proof.
  assert (Htail : forall k, grouped_tail k = true -> codepoints (join k) = k).
  { induction k as [|g t IH]; [reflexivity|]. intros H.
    pose proof H as H'. simpl in H'.
    apply andb_prop in H' as [H' Ht]. apply andb_prop in H' as [Hg _].
    simpl. rewrite (codepoints_group_append g (join t) Hg (grouped_tail_join_start t Ht)).
    rewrite (IH Ht). reflexivity. }
  destruct l as [|g t]; [reflexivity|]. simpl. intros H.
  apply andb_prop in H as [Hg Ht].
  rewrite (codepoints_group_append g (join t) Hg (grouped_tail_join_start t Ht)).
  rewrite (Htail t Ht). reflexivity.
Qed.

Lemma lstrip_points_decomp (l : list string) :
  exists pre, l = (pre ++ lstrip_points l)%list /\ forallb isspace pre = true.
Proof.
  induction l as [|c l IH]; simpl.
  - exists []. split; reflexivity.
  - destruct (isspace c) eqn:Hc.
    + destruct IH as (pre & Heq & Hpre).
      exists (c :: pre). simpl. rewrite Hc, Hpre. split; [exact (f_equal (cons c) Heq) | reflexivity].
    + exists []. split; reflexivity.
Qed.

Lemma rstrip_points_decomp (l : list string) :
  exists post, l = (rstrip_points l ++ post)%list /\ forallb isspace post = true.
Proof.
  induction l as [|c l IH]; simpl.
  - exists []. split; reflexivity.
  - destruct IH as (post & Heq & Hpost).
    destruct (rstrip_points l) as [|c' r] eqn:Hr.
    + simpl in Heq. subst post. destruct (isspace c) eqn:Hc.
      * exists (c :: l). simpl. rewrite Hc, Hpost. split; reflexivity.
      * exists l. split; [reflexivity | assumption].
    + exists post. split; [exact (f_equal (cons c) Heq) | assumption].
Qed.

Lemma lstrip_points_head (l : list string) (c : string) :
  head (lstrip_points l) = Some c -> isspace c = false.
Proof.
  induction l as [|a l IH]; simpl; [discriminate|].
  destruct (isspace a) eqn:Ha; [assumption|].
  simpl. intros [= <-]. assumption.
Qed.

Lemma rstrip_points_head (l : list string) (c : string) :
  head (rstrip_points l) = Some c -> head l = Some c.
Proof.
  destruct l as [|a l]; simpl; [discriminate|].
  destruct (rstrip_points l); [destruct (isspace a)|]; simpl; congruence.
Qed.

Lemma rstrip_points_last (l : list string) (c : string) :
  last (rstrip_points l) = Some c -> isspace c = false.
Proof.
  induction l as [|a l IH]; simpl; [discriminate|].
  destruct (rstrip_points l) as [|b r] eqn:Hr.
  - destruct (isspace a) eqn:Ha; simpl; [discriminate|]. intros [= <-]. assumption.
  - simpl. assumption.
Qed.

Lemma lstrip_points_grouped (l : list string) :
  grouped l = true -> grouped (lstrip_points l) = true.
Proof.
  assert (Htail : forall k, grouped_tail k = true -> grouped_tail (lstrip_points k) = true).
  { induction k as [|g t IH]; [reflexivity|]. intros H. simpl.
    destruct (isspace g); [|exact H].
    simpl in H. apply andb_prop in H as [_ Ht]. apply IH. exact Ht. }
  destruct l as [|g t]; [reflexivity|]. intros H. simpl.
  destruct (isspace g); [|exact H].
  simpl in H. apply andb_prop in H as [_ Ht].
  apply grouped_tail_grouped, Htail. exact Ht.
Qed.

Lemma rstrip_points_grouped (l : list string) :
  grouped l = true -> grouped (rstrip_points l) = true.
Proof.
  assert (Htail : forall k, grouped_tail k = true -> grouped_tail (rstrip_points k) = true).
  { induction k as [|g t IH]; [reflexivity|]. intros H. simpl in H |- *.
    apply andb_prop in H as [Hg Ht]. specialize (IH Ht).
    destruct (rstrip_points t) as [|b r].
    - destruct (isspace g); [reflexivity|]. simpl. rewrite Hg. reflexivity.
    - simpl in IH |- *. rewrite Hg, IH. reflexivity. }
  destruct l as [|g t]; [reflexivity|]. intros H. simpl in H |- *.
  apply andb_prop in H as [Hg Ht]. pose proof (Htail t Ht) as Hr.
  destruct (rstrip_points t) as [|b r].
  - destruct (isspace g); [reflexivity|]. simpl. rewrite Hg. reflexivity.
  - simpl in Hr |- *. rewrite Hg, Hr. reflexivity.
Qed.

Lemma strip_points_grouped (s : string) : grouped (strip_points s) = true.
Proof.
  apply rstrip_points_grouped, lstrip_points_grouped, codepoints_grouped.
Qed.

(** The code points of the stripped string. *)
Lemma codepoints_strip (s : string) : codepoints (strip s) = strip_points s.
Proof. apply codepoints_join, strip_points_grouped. Qed.

(** A string is its stripped part between two runs of whitespace. *)
Lemma strip_decomp (s : string) :
  exists pre post : list string,
    s = join pre ++ strip s ++ join post /\
    forallb isspace pre = true /\ forallb isspace post = true.
Proof.
  destruct (lstrip_points_decomp (codepoints s)) as (pre & Hs & Hpre).
  destruct (rstrip_points_decomp (lstrip_points (codepoints s))) as (post & Hl & Hpost).
  exists pre, post. split; [|auto].
  rewrite <- (join_codepoints s) at 1. rewrite Hs, Hl at 1.
  rewrite !join_app. reflexivity.
Qed.

(** The stripped string neither starts nor ends with whitespace. *)
Lemma strip_ends (s : string) (c : string) :
  first_point (strip s) = Some c \/ last_point (strip s) = Some c ->
  isspace c = false.
Proof.
  unfold first_point, last_point. rewrite codepoints_strip. unfold strip_points.
  intros [H|H].
  - eapply lstrip_points_head, rstrip_points_head, H.
  - eapply rstrip_points_last, H.
Qed.

Lemma str_falsy_empty (s : string) : str_falsy s = true <-> s = EmptyString.
Proof. destruct s; simpl; split; congruence. Qed.

(** [not v or not v.strip()] is decided by [v.strip()] alone. *)
Lemma blank_test (v : string) :
  str_falsy v || str_falsy (strip v) = str_falsy (strip v).
Proof. destruct v; reflexivity. Qed.

Lemma str_falsy_false (s : string) : str_falsy s = false <-> s <> "".
Proof. destruct s; simpl; split; congruence. Qed.

Lemma join_nil (l : list string) : grouped l = true -> join l = "" -> l = [].
Proof.
  destruct l as [|g t]; [reflexivity|]. simpl. intros H.
  apply andb_prop in H as [Hg _]. destruct g; discriminate.
Qed.

Lemma lstrip_points_all_space (l : list string) :
  forallb isspace l = true -> lstrip_points l = [].
Proof.
  induction l as [|c l IH]; simpl; [reflexivity|].
  destruct (isspace c); simpl; [exact IH | discriminate].
Qed.

(** A string strips to nothing exactly when all its code points are
    whitespace. *)
Lemma strip_blank_iff (s : string) : strip s = "" <-> all_space s = true.
Proof.
  unfold all_space. split.
  - intros H. apply join_nil in H; [|apply strip_points_grouped].
    unfold strip_points in H.
    destruct (lstrip_points_decomp (codepoints s)) as (pre & Hs & Hpre).
    destruct (rstrip_points_decomp (lstrip_points (codepoints s))) as (post & Hl & Hpost).
    rewrite H in Hl. simpl in Hl. rewrite Hs, Hl, forallb_app, Hpre, Hpost. reflexivity.
  - intros H. unfold strip, strip_points.
    rewrite (lstrip_points_all_space _ H). reflexivity.
Qed.

Lemma lstrip_points_fixed (l : list string) :
  (forall c, head l = Some c -> isspace c = false) -> lstrip_points l = l.
Proof.
  destruct l as [|a l]; [reflexivity|]. intros H. simpl.
  rewrite (H a eq_refl). reflexivity.
Qed.

Lemma rstrip_points_idempotent (l : list string) :
  rstrip_points (rstrip_points l) = rstrip_points l.
Proof.
  induction l as [|c l IH]; [reflexivity|]. simpl.
  destruct (rstrip_points l) as [|a r] eqn:Hr.
  - destruct (isspace c) eqn:Hc; simpl; [reflexivity|]. rewrite Hc. reflexivity.
  - change (rstrip_points (c :: a :: r)) with
      (match rstrip_points (a :: r) with
       | [] => if isspace c then [] else [c]
       | r' => c :: r'
       end).
    rewrite IH. reflexivity.
Qed.

(** Stripping a stripped string changes nothing. *)
Lemma strip_idempotent (s : string) : strip (strip s) = strip s.
Proof.
  unfold strip at 1. unfold strip_points at 1. rewrite codepoints_strip.
  rewrite lstrip_points_fixed.
  - unfold strip_points at 1. rewrite rstrip_points_idempotent. reflexivity.
  - intros c Hc. apply (strip_ends s c). left.
    unfold first_point. rewrite codepoints_strip. exact Hc.
Qed.

(** On ASCII, [isspace] is Python's table for one byte. *)
Lemma isspace_ascii (c : ascii) :
  (nat_of_ascii c <? 128)%nat = true ->
  isspace (String c "") =
    let n := nat_of_ascii c in
    ((9 <=? n)%nat && (n <=? 13)%nat) || ((28 <=? n)%nat && (n <=? 32)%nat).
Proof. destruct c as [[] [] [] [] [] [] [] []]; vm_compute; congruence. Qed.

(** An ASCII string has one code point per byte. *)
Lemma codepoints_ascii (s : string) :
  is_ascii s = true ->
  Forall (fun cp => exists c, cp = String c "" /\ (nat_of_ascii c <? 128)%nat = true)
    (codepoints s).
Proof.
  induction s as [|c s IH]; [constructor|].
  simpl. intros H. apply andb_prop in H as [Hc Hs]. specialize (IH Hs).
  destruct (codepoints s) as [|h t].
  - repeat constructor. exists c. split; [reflexivity | exact Hc].
  - pose proof (Forall_inv IH) as (c' & -> & Hc'). simpl.
    assert (Hcont : is_continuation c' = false).
    { unfold is_continuation. cbv zeta.
      apply Nat.ltb_lt in Hc'. apply andb_false_intro1. apply Nat.leb_gt. exact Hc'. }
    rewrite Hcont. constructor; [|exact IH].
    exists c. split; [reflexivity | exact Hc].
Qed.

(** On an ASCII string [upper] does not consult the Unicode table. *)
Lemma upper_ascii_any_table (u u' : unicode_data) (s : string) :
  is_ascii s = true -> upper u s = upper u' s.
Proof.
  intros H. unfold upper. f_equal. apply map_ext_Forall.
  eapply Forall_impl; [apply (codepoints_ascii s H)|].
  intros cp (c & -> & Hc). simpl. rewrite Hc. reflexivity.
Qed.

End StringFacts.

(** ** Error translation *)

Ltac unfold_chains :=
  unfold new_sessions.create_streaming_session_except,
    start_session.start_streaming_session_except,
    close_session.close_session_except, keep_alive.keep_alive_except,
    interrupt_task.interrupt_task_except,
    create_session_token.create_session_token_except,
    send_task.send_task_except, list_avatars.list_avatars_except,
    list_sessions_active.list_sessions_active_except,
    list_sessions_history.list_sessions_history_except in *.

Ltac split_isinstance e :=
  destruct (isinstance e AuthenticationError) eqn:?,
           (isinstance e HeyGenAPIError) eqn:?,
           (isinstance e HeyGenValidationError) eqn:?,
           (isinstance e NotFoundError) eqn:?,
           (isinstance e RateLimitError) eqn:?,
           (isinstance e ServerError) eqn:?,
           (isinstance e SessionNotFoundError) eqn:?,
           (isinstance e ValidationError) eqn:?.

(** C1, as amended: a handler answers an upstream error by the first of
    its [except] clauses that matches; the status is the table's for the
    class of that clause and 500 when no clause matches.  The error text
    sent is [str(e)], as the [message] of the detail in the six handlers
    with a dict detail and as the bare detail in the other four, save
    for two clauses with a text of their own: [start_streaming_session]
    answers a [NotFoundError] with the session id of the request, and
    [create_streaming_session] answers a pydantic [ValidationError]
    with a fixed message, the error text being the [details].  When no
    clause matches the answer is the handler's fixed 500. *)
Theorem C1_status_by_first_matching_clause (i : invocation) (e : exn) :
  reaches_upstream i = true ->
  exists x,
    raises i (Raised e) = Some x /\
    status_code x =
      match first_match (clauses (handler_of i)) e with
      | Some k => table_status k e
      | None => 500
      end /\
    (forall k, first_match (clauses (handler_of i)) e = Some k ->
       k <> ValidationError ->
       ~ (handler_of i = H_start_streaming_session /\ k = NotFoundError) ->
       error_text (detail x) = Some (str e)) /\
    (structured_handler (handler_of i) = true ->
       exists m, body_message (detail x) = Some m) /\
    (forall request, i = I_start_streaming_session request ->
       first_match (clauses (handler_of i)) e = Some NotFoundError ->
       detail x = PDict [("message",
                          PStr ("Session not found: "
                                ++ start_session.session_id request))]) /\
    (first_match (clauses (handler_of i)) e = Some ValidationError ->
       handler_of i = H_create_streaming_session /\
       detail x = PDict [("message", PStr "Validation error");
                         ("details", PStr (str e))]) /\
    (first_match (clauses (handler_of i)) e = None ->
       x = generic_error (handler_of i)).
Proof.
  intros Hup.
  destruct i; simpl in Hup |- *;
    try (unfold new_sessions.create_streaming_session;
         destruct (validate_new_session_request request); [discriminate|]; simpl);
    eexists; (split; [reflexivity|]);
    unfold_chains; unfold first_match, getattr_status_code; simpl;
    split_isinstance e; simpl;
    (split; [reflexivity|]);
    (split; [intros k [= <-] Hk Hs; first [reflexivity | congruence | tauto]
                    || (intros k Hk; discriminate)|]);
    (split; [first [discriminate | intros _; eexists; reflexivity]|]);
    (split; [intros request' Hi; try discriminate Hi; injection Hi as <-;
             intros Hk; first [discriminate Hk | reflexivity]|]);
    (split; [intros Hk; first [discriminate Hk | split; reflexivity]|]);
    intros Hk; first [discriminate Hk | reflexivity].
Qed.

Lemma C1_status_by_first_matching_clause_witness :
  (exists x,
     raises (I_send_task {| send_task.session_id := "s1"; send_task.text := "hi";
                            send_task.task_mode := send_task.SYNC;
                            send_task.task_type := send_task.REPEAT |})
            (Raised (exn_of RateLimitError "slow down")) = Some x /\
     status_code x = 429 /\
     error_text (detail x) = Some "slow down") /\
  (exists x,
     raises (I_start_streaming_session {| start_session.session_id := "s1" |})
            (Raised (exn_of NotFoundError "upstream says gone")) = Some x /\
     status_code x = 404 /\
     detail x = PDict [("message", PStr "Session not found: s1")]).
Proof.
  split.
  - destruct (C1_status_by_first_matching_clause
                (I_send_task {| send_task.session_id := "s1"; send_task.text := "hi";
                                send_task.task_mode := send_task.SYNC;
                                send_task.task_type := send_task.REPEAT |})
                (exn_of RateLimitError "slow down") eq_refl)
      as (x & Hx & Hstatus & Htext & _).
    exists x. split; [exact Hx|]. split; [exact Hstatus|].
    apply (Htext RateLimitError eq_refl); [discriminate | intros [H _]; discriminate].
  - destruct (C1_status_by_first_matching_clause
                (I_start_streaming_session {| start_session.session_id := "s1" |})
                (exn_of NotFoundError "upstream says gone") eq_refl)
      as (x & Hx & Hstatus & _ & _ & Hnf & _).
    exists x. split; [exact Hx|]. split; [exact Hstatus|].
    exact (Hnf {| start_session.session_id := "s1" |} eq_refl eq_refl).
Defined.

(** C1 as stated fails: [start_streaming_session] answers a
    [NotFoundError] with a message of its own that does not contain the
    error text, and [keep_alive], which has no clause for
    [HeyGenValidationError], answers it with 500, whether or not the
    exception is also a [HeyGenAPIError]. *)
Lemma C1_counterexample :
  (raises (I_start_streaming_session {| start_session.session_id := "s1" |})
          (Raised (exn_of NotFoundError "upstream says gone"))
   = Some {| status_code := 404;
             detail := PDict [("message", PStr "Session not found: s1")] |}
   /\ contains "upstream says gone" "Session not found: s1" = false)
  /\ (raises (I_keep_alive no_coercion "s1")
            (Raised (exn_of HeyGenValidationError "bad input"))
      = Some {| status_code := 500; detail := PStr "An unexpected error occurred" |}
      /\ table_status HeyGenValidationError (exn_of HeyGenValidationError "bad input") = 400)
  /\ raises (I_keep_alive no_coercion "s1")
            (Raised {| isinstance := fun c => match c with
                                              | HeyGenValidationError | HeyGenAPIError => true
                                              | _ => false
                                              end;
                       str := "bad input";
                       attr_status_code := None;
                       attr_details := None |})
     = Some {| status_code := 500; detail := PStr "bad input" |}.
Proof. repeat split; vm_compute; reflexivity. Qed.

(** C2, as amended: in [create_streaming_session],
    [start_streaming_session], [send_task], [list_avatars],
    [list_sessions_active] and [list_sessions_history] the detail of
    every [HTTPException] raised is a dict with a string [message] and
    at most a [details] besides; in [close_session], [keep_alive],
    [interrupt_task] and [create_session_token] it is a bare string. *)
Theorem C2_detail_shape (i : invocation) (upstream : outcome) (x : HTTPException) :
  raises i upstream = Some x ->
  if structured_handler (handler_of i)
  then structured_detail (detail x) = true
  else exists s, detail x = PStr s.
Proof.
  destruct i; simpl;
    try (unfold new_sessions.create_streaming_session;
         destruct (validate_new_session_request request) as [e'|]; simpl);
    try (destruct upstream as [response|e]; simpl);
    unfold or_unexpected;
    repeat match goal with
           | |- context [match ?b with Some _ => _ | None => _ end] => destruct b; simpl
           end;
    try discriminate;
    intros [= <-]; unfold_chains;
    try (split_isinstance e'; simpl; reflexivity);
    try (split_isinstance e; simpl; first [reflexivity | eexists; reflexivity]);
    first [reflexivity | eexists; reflexivity].
Qed.

Lemma C2_detail_shape_witness :
  structured_detail
    (detail {| status_code := 401; detail := PDict [("message", PStr "Invalid API key")] |})
  = true.
Proof.
  exact (C2_detail_shape (I_list_avatars no_coercion sample_unicode)
           (Raised (exn_of AuthenticationError "Invalid API key"))
           {| status_code := 401; detail := PDict [("message", PStr "Invalid API key")] |}
           eq_refl).
Defined.

(** C2 as stated fails: [keep_alive] raises its [HTTPException] with a
    bare string as detail. *)
Lemma C2_counterexample :
  raises (I_keep_alive no_coercion "s1")
         (Raised (exn_of AuthenticationError "Invalid API key"))
  = Some {| status_code := 401; detail := PStr "Invalid API key" |}
  /\ structured_detail (PStr "Invalid API key") = false.
Proof. split; reflexivity. Qed.

(** ** Interrupt and session tokens *)

(** C10: when the upstream call returns, whatever it returns,
    [interrupt_task] answers 200 with [success = true] and the fixed
    message. *)
Theorem C10_interrupt_constant_response
    (heygen_client : string -> outcome) (session_id : string) (response : pyval) :
  heygen_client session_id = Returned response ->
  interrupt_task.interrupt_task heygen_client session_id
  = ([session_id],
     Success 200 {| interrupt_task.success := true;
                    interrupt_task.message := "Interrupt signal sent successfully" |}).
Proof.
  intros H. unfold interrupt_task.interrupt_task. rewrite H. reflexivity.
Qed.

Lemma C10_interrupt_constant_response_witness :
  interrupt_task.interrupt_task
    (fun _ => Returned (PDict [("code", PInt 400); ("message", PStr "ignored")])) "s1"
  = (["s1"],
     Success 200 {| interrupt_task.success := true;
                    interrupt_task.message := "Interrupt signal sent successfully" |}).
Proof.
  exact (C10_interrupt_constant_response
           (fun _ => Returned (PDict [("code", PInt 400); ("message", PStr "ignored")]))
           "s1" _ eq_refl).
Defined.

(** C9, as amended: for a payload whose ["data"] is missing, or is a
    dict without ["token"], and whose ["error"] is absent, [None] or a
    dict, [create_session_token] answers 201 with an empty token and
    that error. *)
Theorem C9_missing_token_defaults_to_empty
    (heygen_client : string -> option Z -> outcome)
    (session_id : string) (expires_in : option Z)
    (d : list (string * pyval)) (err : option (list (string * pyval))) :
  heygen_client session_id expires_in = Returned (PDict d) ->
  (dict_lookup "data" d = None \/
   exists data, dict_lookup "data" d = Some (PDict data) /\ dict_lookup "token" data = None) ->
  error_of_payload d = Some err ->
  create_session_token.create_session_token heygen_client session_id expires_in
  = ([(session_id, expires_in)],
     Success 201 {| create_session_token.token := "";
                    create_session_token.error := err |}).
Proof.
  intros Hret Hdata Herr.
  unfold create_session_token.create_session_token. rewrite Hret.
  unfold create_session_token.build, py_get_none, py_get, error_of_payload in *.
  revert Herr.
  destruct Hdata as [Hd | (data & Hd & Ht)]; rewrite Hd; simpl; [|rewrite Ht; simpl];
    destruct (dict_lookup "error" d) as [[]|]; simpl;
    first [discriminate | intros [= <-]; reflexivity].
Qed.

Lemma C9_missing_token_defaults_to_empty_witness :
  create_session_token.create_session_token
    (fun _ _ => Returned (PDict [("data", PDict [])])) "abc" (Some 3600)
  = ([("abc", Some 3600)],
     Success 201 {| create_session_token.token := "";
                    create_session_token.error := None |}).
Proof.
  apply (C9_missing_token_defaults_to_empty
           (fun _ _ => Returned (PDict [("data", PDict [])])) "abc" (Some 3600)
           [("data", PDict [])] None eq_refl).
  - right. exists []. split; reflexivity.
  - reflexivity.
Defined.

(** C9 as stated fails: a payload without ["data"] whose ["error"] is a
    string makes the construction of the response raise, and the
    handler answers 500. *)
Lemma C9_counterexample :
  dict_lookup "data" [("error", PStr "quota exceeded")] = None /\
  create_session_token.create_session_token
    (fun _ _ => Returned (PDict [("error", PStr "quota exceeded")])) "abc" (Some 3600)
  = ([("abc", Some 3600)],
     HTTPError {| status_code := 500; detail := PStr "An unexpected error occurred" |}).
Proof. split; reflexivity. Qed.

(** C3: what the code does with [expires_in].  The route forwards any
    integer, 59 included, and supplies 3600 when the parameter is
    omitted; the bounds 60 and 86400 are those of [CreateTokenRequest],
    which rejects 59 and accepts both ends but which the handler does
    not use. *)
Theorem C3_expires_in_not_checked_by_route
    (heygen_client : string -> option Z -> outcome) (session_id : string) :
  (forall n : Z,
     fst (create_session_token.route heygen_client session_id (Some n))
     = [(session_id, Some n)]) /\
  fst (create_session_token.route heygen_client session_id None)
  = [(session_id, Some 3600)] /\
  create_session_token.route (fun _ _ => Returned (PDict [("data", PDict [("token", PStr "tok")])]))
    "abc" (Some 59)
  = ([("abc", Some 59)],
     Success 201 {| create_session_token.token := "tok";
                    create_session_token.error := None |}) /\
  (forall lax : lax_coercions,
     create_session_token.CreateTokenRequest_validate lax
       (PDict [("session_id", PStr "abc"); ("expires_in", PInt 59)]) = None /\
     create_session_token.CreateTokenRequest_validate lax
       (PDict [("session_id", PStr "abc"); ("expires_in", PInt 60)])
     = Some {| create_session_token.session_id := "abc";
               create_session_token.expires_in := Some 60 |} /\
     create_session_token.CreateTokenRequest_validate lax
       (PDict [("session_id", PStr "abc"); ("expires_in", PInt 86400)])
     = Some {| create_session_token.session_id := "abc";
               create_session_token.expires_in := Some 86400 |} /\
     create_session_token.CreateTokenRequest_validate lax
       (PDict [("session_id", PStr "abc"); ("expires_in", PInt 86401)]) = None).
Proof.
  repeat split; try reflexivity.
Qed.

(** ** Send task *)




(** ** Normalisation of list payloads *)

Section Normalisation.

Context (lax : lax_coercions) (u : unicode_data).

(** What a successful [list_avatars] returns: one [AvatarInfo] per
    entry of the payload, in order. *)
Lemma list_avatars_success (heygen_client : unit -> outcome) (response : pyval)
    (status : Z) (body : list_avatars.ListAvatarsResponse) :
  heygen_client tt = Returned response ->
  snd (list_avatars.list_avatars lax u heygen_client) = Success status body ->
  exists entries,
    payload_entries response = Some entries /\
    Forall2 (fun entry info => list_avatars.avatar_item lax u entry = Some info)
      entries (list_avatars.data body).
Proof.
  intros Hret. unfold list_avatars.list_avatars. rewrite Hret. simpl.
  unfold list_avatars.build, payload_entries.
  destruct (py_get response "code" (PInt 100)) as [code_v|]; [|discriminate]. simpl.
  destruct (py_get response "message" (PStr "Success")) as [message_v|]; [|discriminate].
  simpl.
  destruct (py_get response "data" (PList [])) as [data_v|]; [|discriminate]. simpl.
  destruct (py_iter data_v) as [entries|]; [|discriminate]. simpl.
  destruct (mapM (list_avatars.avatar_item lax u) entries) as [items|] eqn:Hitems;
    [|discriminate]. simpl.
  destruct (validate_int lax code_v) as [c|]; [|discriminate]. simpl.
  destruct (list_avatars.validate_code c) as [c'|]; [|discriminate]. simpl.
  destruct (validate_str message_v) as [m|]; [|discriminate]. simpl.
  destruct (list_avatars.validate_message m) as [m'|]; [|discriminate]. simpl.
  intros [= _ <-]. exists entries. split; [reflexivity|].
  apply mapM_Some_1. exact Hitems.
Qed.

Lemma list_sessions_active_success (heygen_client : unit -> outcome) (response : pyval)
    (status : Z) (body : list_sessions_active.ListSessionsActiveResponse) :
  heygen_client tt = Returned response ->
  snd (list_sessions_active.list_sessions_active lax heygen_client)
  = Success status body ->
  exists entries,
    payload_entries response = Some entries /\
    Forall2 (fun entry info => list_sessions_active.session_item lax entry = Some info)
      entries (list_sessions_active.data body).
Proof.
  intros Hret. unfold list_sessions_active.list_sessions_active. rewrite Hret. simpl.
  unfold list_sessions_active.build, payload_entries.
  destruct (py_get response "code" (PInt 100)) as [code_v|]; [|discriminate]. simpl.
  destruct (py_get response "message" (PStr "Success")) as [message_v|]; [|discriminate].
  simpl.
  destruct (py_get response "data" (PList [])) as [data_v|]; [|discriminate]. simpl.
  destruct (py_iter data_v) as [entries|]; [|discriminate]. simpl.
  destruct (mapM (list_sessions_active.session_item lax) entries) as [items|] eqn:Hitems;
    [|discriminate]. simpl.
  destruct (validate_int lax code_v) as [c|]; [|discriminate]. simpl.
  destruct (validate_str message_v) as [m|]; [|discriminate]. simpl.
  intros [= _ <-]. exists entries. split; [reflexivity|].
  apply mapM_Some_1. exact Hitems.
Qed.

(** Every item of the comprehension comes from an entry that passes
    the condition. *)
Lemma comprehension_items (sessions : list pyval)
    (items : list list_sessions_history.SessionHistoryInfo) :
  list_sessions_history.comprehension lax sessions = Some items ->
  Forall (fun info => exists session,
            session ∈ sessions /\
            list_sessions_history.keeps session = Some true /\
            list_sessions_history.history_item lax session = Some info) items.
Proof.
  revert items. induction sessions as [|session rest IH]; intros items; simpl.
  - intros [= <-]. constructor.
  - destruct (list_sessions_history.keeps session) as [[]|] eqn:Hk; simpl;
      [| |discriminate].
    + destruct (list_sessions_history.history_item lax session) as [item|] eqn:Hi;
        [|discriminate]. simpl.
      destruct (list_sessions_history.comprehension lax rest) as [items'|];
        [|discriminate]. simpl.
      intros [= <-]. constructor.
      * exists session. split; [left|]. auto.
      * eapply Forall_impl; [apply IH; reflexivity|].
        intros info (s' & Hin & Hrest). exists s'. split; [right; exact Hin | exact Hrest].
    + intros H. eapply Forall_impl; [apply IH; exact H|].
      intros info (s' & Hin & Hrest). exists s'. split; [right; exact Hin | exact Hrest].
Qed.

Lemma list_sessions_history_success
    (heygen_client : list_sessions_history.history_call -> outcome)
    (start_time end_time : option Z) (limit offset : Z) (response : pyval)
    (status : Z) (body : list_sessions_history.ListSessionsHistoryResponse) :
  heygen_client {| list_sessions_history.call_start_time := start_time;
                   list_sessions_history.call_end_time := end_time;
                   list_sessions_history.call_limit := limit;
                   list_sessions_history.call_offset := offset |}
  = Returned response ->
  snd (list_sessions_history.list_sessions_history lax heygen_client
         start_time end_time limit offset) = Success status body ->
  exists entries,
    payload_entries response = Some entries /\
    list_sessions_history.comprehension lax entries
    = Some (list_sessions_history.data body).
Proof.
  intros Hret. unfold list_sessions_history.list_sessions_history. simpl.
  rewrite Hret.
  unfold list_sessions_history.build, payload_entries.
  destruct (py_get response "code" (PInt 100)) as [code_v|]; [|discriminate]. simpl.
  destruct (py_get response "message" (PStr "Success")) as [message_v|]; [|discriminate].
  simpl.
  destruct (py_get response "data" (PList [])) as [data_v|]; [|discriminate]. simpl.
  destruct (py_iter data_v) as [entries|]; [|discriminate]. simpl.
  destruct (list_sessions_history.comprehension lax entries) as [items|] eqn:Hitems;
    [|discriminate]. simpl.
  destruct (py_get response "pagination" (PDict [])) as [pag|]; [|discriminate]. simpl.
  destruct (py_get pag "total" (PInt 0)) as [total_v|]; [|discriminate]. simpl.
  destruct (py_get pag "has_more" (PBool false)) as [has_more_v|]; [|discriminate]. simpl.
  destruct (validate_int lax total_v) as [t|]; [|discriminate]. simpl.
  destruct (validate_bool lax has_more_v) as [h|]; [|discriminate]. simpl.
  destruct (validate_int lax code_v) as [c|]; [|discriminate]. simpl.
  destruct (validate_str message_v) as [m|]; [|discriminate]. simpl.
  intros [= _ <-]. exists entries. split; [reflexivity | exact Hitems].
Qed.

End Normalisation.

(** ** Status fields *)

(** One step through a chain of validations that succeeded. *)
Ltac bind_step :=
  match goal with
  | |- mbind _ ?x = Some _ -> _ =>
      let E := fresh "E" in destruct x eqn:E; simpl; [|discriminate]
  end.

Lemma validate_str_Some (v : pyval) (s : string) :
  validate_str v = Some s -> v = PStr s.
Proof. destruct v; simpl; congruence. Qed.

Section StatusFields.

Context (lax : lax_coercions) (u : unicode_data).

(** The status of a normalised avatar is the entry's status string,
    ["ACTIVE"] when the key is absent, stripped and upper-cased. *)
Lemma avatar_item_status (d : list (string * pyval)) (info : list_avatars.AvatarInfo) :
  list_avatars.avatar_item lax u (PDict d) = Some info ->
  exists s, status_or "ACTIVE" d = PStr s /\ strip s <> "" /\
            list_avatars.status info = upper u (strip s).
Proof.
  unfold list_avatars.avatar_item, list_avatars.AvatarInfo_new,
    py_get_none, py_get. simpl.
  fold (status_or "ACTIVE" d).
  do 4 bind_step.
  unfold list_avatars.validate_status. rewrite blank_test.
  match goal with
  | H : validate_str (status_or "ACTIVE" d) = Some ?s |- _ =>
      apply validate_str_Some in H;
      destruct (str_falsy (strip s)) eqn:Hf; simpl; [discriminate|];
      intros [= <-]; exists s; split; [exact H|]; split; [|reflexivity];
      intros Hs; rewrite Hs in Hf; discriminate
  end.
Qed.





Lemma validate_status_spec (v : string) :
  list_avatars.validate_status u v
  = if str_falsy (strip v) then None else Some (upper u (strip v)).
Proof. unfold list_avatars.validate_status. rewrite blank_test. reflexivity. Qed.


End StatusFields.

(** ** History filtering *)

Section History.

Context (lax : lax_coercions).

Lemma well_formed_keeps (session : pyval) :
  well_formed_history_entry session = true ->
  list_sessions_history.keeps session = Some true.
Proof.
  destruct session as [| | | | |d]; try discriminate.
  unfold well_formed_history_entry, list_sessions_history.keeps. simpl.
  destruct (dict_lookup "session_id" d) as [[]|]; try discriminate.
  destruct (dict_lookup "created_at" d) as [[]|]; try discriminate.
  reflexivity.
Qed.

Lemma well_formed_item (session : pyval) :
  well_formed_history_entry session = true ->
  is_Some (list_sessions_history.history_item lax session).
Proof.
  destruct session as [| | | | |d]; try discriminate.
  unfold well_formed_history_entry, list_sessions_history.history_item,
    list_sessions_history.SessionHistoryInfo_new, py_get_none, py_get, py_getitem.
  destruct (dict_lookup "session_id" d) as [[]|]; try discriminate.
  destruct (dict_lookup "created_at" d) as [[]|]; try discriminate.
  destruct (dict_lookup "ended_at" d) as [[]|]; try discriminate;
    destruct (dict_lookup "status" d) as [[]|]; try discriminate;
    destruct (dict_lookup "duration_seconds" d) as [[]|]; try discriminate;
    destruct (dict_lookup "avatar_id" d) as [[]|]; try discriminate;
    destruct (dict_lookup "voice_name" d) as [[]|]; try discriminate;
    intros _; eexists; reflexivity.
Qed.

Lemma lacks_session_id_dropped (d : list (string * pyval)) :
  dict_lookup "session_id" d = None ->
  list_sessions_history.keeps (PDict d) = Some false.
Proof.
  intros H. unfold list_sessions_history.keeps. simpl. rewrite H. reflexivity.
Qed.

(** On well-formed entries the comprehension keeps every entry. *)
Lemma comprehension_well_formed (sessions : list pyval) :
  Forall (fun s => well_formed_history_entry s = true) sessions ->
  list_sessions_history.comprehension lax sessions
  = mapM (list_sessions_history.history_item lax) sessions.
Proof.
  induction 1 as [|session rest Hwf _ IH]; [reflexivity|].
  simpl. rewrite (well_formed_keeps _ Hwf). simpl. rewrite IH. reflexivity.
Qed.

(** One entry without ["session_id"] among well-formed ones is
    skipped. *)
Lemma comprehension_skips (before after : list pyval) (d : list (string * pyval)) :
  Forall (fun s => well_formed_history_entry s = true) before ->
  Forall (fun s => well_formed_history_entry s = true) after ->
  dict_lookup "session_id" d = None ->
  list_sessions_history.comprehension lax (before ++ PDict d :: after)
  = mapM (list_sessions_history.history_item lax) (before ++ after).
Proof.
  intros Hb Ha Hd. induction Hb as [|session rest Hwf _ IH].
  - simpl. rewrite (lacks_session_id_dropped _ Hd). simpl.
    apply comprehension_well_formed. exact Ha.
  - simpl. rewrite (well_formed_keeps _ Hwf). simpl. rewrite IH. reflexivity.
Qed.

Lemma well_formed_all_accepted (sessions : list pyval) :
  Forall (fun s => well_formed_history_entry s = true) sessions ->
  is_Some (mapM (list_sessions_history.history_item lax) sessions).
Proof.
  intros H. apply mapM_is_Some. eapply Forall_impl; [exact H|].
  intros s Hs. apply well_formed_item. exact Hs.
Qed.

Lemma keeps_dict (session : pyval) :
  is_dict session = true ->
  list_sessions_history.keeps session = Some (has_required_keys session).
Proof.
  destruct session as [| | | | |d]; try discriminate. intros _.
  unfold list_sessions_history.keeps, has_required_keys. simpl.
  destruct (bool_decide (is_Some (dict_lookup "session_id" d))); reflexivity.
Qed.

(** On a list of dicts the comprehension is a filter followed by a
    map. *)
Lemma comprehension_filter_map (sessions : list pyval) :
  Forall (fun s => is_dict s = true) sessions ->
  list_sessions_history.comprehension lax sessions
  = mapM (list_sessions_history.history_item lax) (List.filter has_required_keys sessions).
Proof.
  induction 1 as [|session rest Hd _ IH]; [reflexivity|].
  simpl. rewrite (keeps_dict _ Hd). cbn [mbind option_bind].
  destruct (has_required_keys session); simpl; rewrite IH; reflexivity.
Qed.


(** The response is built from the items and the envelope. *)
Lemma build_envelope (d : list (string * pyval)) (entries : list pyval)
    (items : list list_sessions_history.SessionHistoryInfo) (limit offset : Z) :
  payload_entries (PDict d) = Some entries ->
  list_sessions_history.comprehension lax entries = Some items ->
  list_sessions_history.build lax (PDict d) limit offset
  = match history_envelope lax d with
    | Some (c, m, t, h) =>
        Some {| list_sessions_history.code := c;
                list_sessions_history.message := m;
                list_sessions_history.data := items;
                list_sessions_history.pagination :=
                  {| list_sessions_history.total := t;
                     list_sessions_history.limit := limit;
                     list_sessions_history.offset := offset;
                     list_sessions_history.has_more := h |} |}
    | None => None
    end.
Proof.
  unfold payload_entries, list_sessions_history.build, history_envelope.
  cbn [py_get mbind option_bind]. intros Hiter Hitems.
  rewrite Hiter. cbn [mbind option_bind]. rewrite Hitems. cbn [mbind option_bind].
  destruct (py_get _ "total" (PInt 0)) as [total_v|]; [|reflexivity].
  cbn [mbind option_bind].
  destruct (py_get _ "has_more" (PBool false)) as [has_more_v|]; [|reflexivity].
  cbn [mbind option_bind].
  destruct (validate_int lax total_v) as [t|]; [|reflexivity]. cbn [mbind option_bind].
  destruct (validate_bool lax has_more_v) as [h|]; [|reflexivity]. cbn [mbind option_bind].
  destruct (validate_int lax _) as [c|]; [|reflexivity]. cbn [mbind option_bind].
  destruct (validate_str _) as [m|]; reflexivity.
Qed.

Lemma well_formed_envelope_fits (d : list (string * pyval)) :
  well_formed_history_envelope d = true -> is_Some (history_envelope lax d).
Proof.
  unfold well_formed_history_envelope, history_envelope, py_get.
  destruct (dict_lookup "code" d) as [[]|]; try discriminate;
    destruct (dict_lookup "message" d) as [[]|]; try discriminate;
    destruct (dict_lookup "pagination" d) as [[| | | | |p]|]; try discriminate;
    simpl;
    try (destruct (dict_lookup "total" p) as [[]|]; try discriminate;
         destruct (dict_lookup "has_more" p) as [[]|]; try discriminate);
    intros _; eexists; reflexivity.
Qed.

End History.

(** ** Payloads the list handlers accept *)

Section Accepted.

Context (lax : lax_coercions) (u : unicode_data).







End Accepted.






(** C8, as amended: [AvatarInfo.validate_status] stores the status
    stripped of surrounding whitespace and upper-cased, and refuses one
    that is empty after stripping; [SessionInfo] and
    [SessionHistoryInfo] have no such validator and store any status
    string, blank or not, as it is.  Stripping takes a run of
    whitespace off each end and leaves a string that neither starts
    nor ends with whitespace; upper-casing maps the stripped string
    code point by code point. *)
Theorem C8_status_normalisation (lax : lax_coercions) (u : unicode_data) (v : string) :
  (strip v = "" -> list_avatars.validate_status u v = None) /\
  (strip v <> "" -> list_avatars.validate_status u v = Some (upper u (strip v))) /\
  (exists pre post : list string,
     v = join pre ++ strip v ++ join post /\
     forallb isspace pre = true /\ forallb isspace post = true) /\
  (forall c, first_point (strip v) = Some c \/ last_point (strip v) = Some c ->
             isspace c = false) /\
  upper u (strip v) = join (map (upper_point u) (strip_points v)) /\
  (forall sid c,
     list_sessions_active.SessionInfo_new lax (PStr sid) (PInt c) (PStr v)
     = Some {| list_sessions_active.session_id := sid;
               list_sessions_active.status := v;
               list_sessions_active.created_at := c |}) /\
  (forall sid c,
     list_sessions_history.SessionHistoryInfo_new lax (PStr sid) (PInt c) PNone (PStr v)
       (PInt 0) PNone PNone
     = Some {| list_sessions_history.session_id := sid;
               list_sessions_history.created_at := c;
               list_sessions_history.ended_at := None;
               list_sessions_history.status := v;
               list_sessions_history.duration_seconds := 0;
               list_sessions_history.avatar_id := None;
               list_sessions_history.voice_name := None |}).
Proof.
  repeat match goal with |- _ /\ _ => split end.
  - intros Hs. rewrite validate_status_spec, Hs. reflexivity.
  - intros Hs. rewrite validate_status_spec.
    destruct (str_falsy (strip v)) eqn:Hf; [|reflexivity].
    apply str_falsy_empty in Hf. contradiction.
  - apply strip_decomp.
  - apply strip_ends.
  - unfold upper. rewrite codepoints_strip. reflexivity.
  - reflexivity.
  - reflexivity.
Qed.

Lemma C8_status_normalisation_witness :
  list_avatars.validate_status sample_unicode "   " = None /\
  list_avatars.validate_status sample_unicode "  active " = Some "ACTIVE".
Proof.
  split.
  - apply (C8_status_normalisation no_coercion sample_unicode "   "). reflexivity.
  - apply (C8_status_normalisation no_coercion sample_unicode "  active "). discriminate.
Defined.

(** C8 as stated fails for session statuses: [list_sessions_active]
    returns a status with its surrounding whitespace and in lower case,
    and [list_sessions_history] accepts an empty one. *)
Lemma C8_counterexample :
  (list_sessions_active.list_sessions_active no_coercion
     (fun _ => Returned
        (PDict [("data", PList [PDict [("session_id", PStr "s1");
                                       ("created_at", PInt 1700000000);
                                       ("status", PStr " connected ")]])]))
   = ([tt],
      Success 200
        {| list_sessions_active.code := 100;
           list_sessions_active.message := "Success";
           list_sessions_active.data :=
             [ {| list_sessions_active.session_id := "s1";
                  list_sessions_active.status := " connected ";
                  list_sessions_active.created_at := 1700000000 |} ] |})
   /\ upper sample_unicode (strip " connected ") = "CONNECTED")
  /\ (strip "" = ""
      /\ list_sessions_history.history_item no_coercion
           (PDict [("session_id", PStr "s1"); ("created_at", PInt 1700000000);
                   ("status", PStr "")])
         = Some {| list_sessions_history.session_id := "s1";
                   list_sessions_history.created_at := 1700000000;
                   list_sessions_history.ended_at := None;
                   list_sessions_history.status := "";
                   list_sessions_history.duration_seconds := 0;
                   list_sessions_history.avatar_id := None;
                   list_sessions_history.voice_name := None |}).
Proof. repeat split; reflexivity. Qed.

(** C5, as amended: for a history payload whose data list has exactly
    one entry without ["session_id"], all others being well formed.
    If the rest of the payload fits the response model, the handler
    answers 200; the returned list is the normalisation of the other
    entries, in order, so it is one shorter than the payload's; and the
    pagination carries the limit and offset resolved from the request.
    If it does not fit, the handler answers 500.  An envelope with an
    integer code, a string message and a pagination dict with an
    integer total and a boolean has_more, each of them optional, fits;
    one whose pagination is not a dict does not. *)
Theorem C5_history_filtering (lax : lax_coercions)
    (heygen_client : list_sessions_history.history_call -> outcome)
    (start_time end_time limit_q offset_q : option Z) (limit offset : Z)
    (d : list (string * pyval)) (entries : list pyval) (i : nat)
    (entry : list (string * pyval)) :
  Query 10 (Some 1) (Some 100) limit_q = Some limit ->
  Query 0 (Some 0) None offset_q = Some offset ->
  heygen_client {| list_sessions_history.call_start_time := start_time;
                   list_sessions_history.call_end_time := end_time;
                   list_sessions_history.call_limit := limit;
                   list_sessions_history.call_offset := offset |}
  = Returned (PDict d) ->
  dict_lookup "data" d = Some (PList entries) ->
  entries !! i = Some (PDict entry) ->
  dict_lookup "session_id" entry = None ->
  (forall (j : nat) e, j <> i -> entries !! j = Some e ->
                       well_formed_history_entry e = true) ->
  (well_formed_history_envelope d = true -> is_Some (history_envelope lax d)) /\
  (forall v, dict_lookup "pagination" d = Some v -> is_dict v = false ->
             history_envelope lax d = None) /\
  match history_envelope lax d with
  | Some (c, m, t, h) =>
      exists items,
        list_sessions_history.route lax heygen_client start_time end_time limit_q offset_q
        = ([{| list_sessions_history.call_start_time := start_time;
               list_sessions_history.call_end_time := end_time;
               list_sessions_history.call_limit := limit;
               list_sessions_history.call_offset := offset |}],
           Success 200
             {| list_sessions_history.code := c;
                list_sessions_history.message := m;
                list_sessions_history.data := items;
                list_sessions_history.pagination :=
                  {| list_sessions_history.total := t;
                     list_sessions_history.limit := limit;
                     list_sessions_history.offset := offset;
                     list_sessions_history.has_more := h |} |}) /\
        length items = (length entries - 1)%nat /\
        mapM (list_sessions_history.history_item lax) (delete i entries) = Some items
  | None =>
      list_sessions_history.route lax heygen_client start_time end_time limit_q offset_q
      = ([{| list_sessions_history.call_start_time := start_time;
             list_sessions_history.call_end_time := end_time;
             list_sessions_history.call_limit := limit;
             list_sessions_history.call_offset := offset |}],
         HTTPError {| status_code := 500;
                      detail := PDict [("message", PStr "Internal server error")] |})
  end.
Proof.
  intros Hlimit Hoffset Hret Hdata Hi Hlacks Hothers.
  split; [apply well_formed_envelope_fits|].
  split.
  { intros v Hv Hnd. unfold history_envelope, py_get. rewrite Hv.
    destruct v; try reflexivity. discriminate Hnd. }
  assert (Hbefore : Forall (fun s => well_formed_history_entry s = true) (take i entries)).
  { apply Forall_lookup. intros j e Hj.
    apply lookup_take_Some in Hj as [Hj Hlt].
    apply (Hothers j e); [lia | exact Hj]. }
  assert (Hafter : Forall (fun s => well_formed_history_entry s = true)
                     (drop (S i) entries)).
  { apply Forall_lookup. intros j e Hj.
    rewrite lookup_drop in Hj.
    apply (Hothers (S i + j)%nat e); [lia | exact Hj]. }
  pose proof (comprehension_skips lax _ _ _ Hbefore Hafter Hlacks) as Hcomp.
  rewrite (take_drop_middle _ _ _ Hi) in Hcomp.
  rewrite <- delete_take_drop in Hcomp.
  destruct (well_formed_all_accepted lax (delete i entries)) as [items Hitems].
  { rewrite delete_take_drop. apply Forall_app. split; assumption. }
  rewrite Hitems in Hcomp.
  assert (Hentries : payload_entries (PDict d) = Some entries).
  { unfold payload_entries, py_get. rewrite Hdata. reflexivity. }
  pose proof (build_envelope lax d entries items limit offset Hentries Hcomp) as Hbuild.
  unfold list_sessions_history.route. rewrite Hlimit, Hoffset.
  unfold list_sessions_history.list_sessions_history. cbv zeta. rewrite Hret, Hbuild.
  destruct (history_envelope lax d) as [[[[c m] t] h]|]; [|reflexivity].
  exists items. split; [reflexivity|]. split; [|exact Hitems].
  rewrite <- (length_mapM _ _ _ Hitems). apply length_delete. eexists. exact Hi.
Qed.

Lemma C5_history_filtering_witness :
  exists items,
    list_sessions_history.route no_coercion
      (fun _ => Returned
         (PDict [("data",
                  PList [PDict [("session_id", PStr "s1"); ("created_at", PInt 10)];
                         PDict [("created_at", PInt 20)];
                         PDict [("session_id", PStr "s3"); ("created_at", PInt 30);
                                ("status", PStr "CLOSED")]]);
                 ("pagination", PDict [("total", PInt 3); ("limit", PInt 50);
                                       ("offset", PInt 7); ("has_more", PInt 1)])]))
      None None (Some 25) None
    = ([{| list_sessions_history.call_start_time := None;
           list_sessions_history.call_end_time := None;
           list_sessions_history.call_limit := 25;
           list_sessions_history.call_offset := 0 |}],
       Success 200
         {| list_sessions_history.code := 100;
            list_sessions_history.message := "Success";
            list_sessions_history.data := items;
            list_sessions_history.pagination :=
              {| list_sessions_history.total := 3;
                 list_sessions_history.limit := 25;
                 list_sessions_history.offset := 0;
                 list_sessions_history.has_more := true |} |}) /\
    length items = 2%nat.
Proof.
  pose proof (C5_history_filtering no_coercion
              (fun _ => Returned
                 (PDict [("data",
                          PList [PDict [("session_id", PStr "s1"); ("created_at", PInt 10)];
                                 PDict [("created_at", PInt 20)];
                                 PDict [("session_id", PStr "s3"); ("created_at", PInt 30);
                                        ("status", PStr "CLOSED")]]);
                         ("pagination", PDict [("total", PInt 3); ("limit", PInt 50);
                                               ("offset", PInt 7);
                                               ("has_more", PInt 1)])]))
              None None (Some 25) None 25 0 _ _ 1%nat [("created_at", PInt 20)]
              eq_refl eq_refl eq_refl eq_refl eq_refl eq_refl) as H.
  destruct H as (_ & _ & items & Hroute & Hlen & _).
  - intros [|[|[|j]]] e Hne He; cbv in He; try congruence;
      injection He as <-; reflexivity.
  - exists items. split; [exact Hroute | exact Hlen].
Defined.

(** C5 as stated fails: with ["pagination"] null the handler answers
    500, although exactly one entry lacks ["session_id"] and the other
    is well formed. *)
Lemma C5_counterexample :
  well_formed_history_entry (PDict [("session_id", PStr "s1"); ("created_at", PInt 10)])
  = true /\
  list_sessions_history.route no_coercion
    (fun _ => Returned
       (PDict [("data",
                PList [PDict [("session_id", PStr "s1"); ("created_at", PInt 10)];
                       PDict [("created_at", PInt 20)]]);
               ("pagination", PNone)]))
    None None None None
  = ([{| list_sessions_history.call_start_time := None;
         list_sessions_history.call_end_time := None;
         list_sessions_history.call_limit := 10;
         list_sessions_history.call_offset := 0 |}],
     HTTPError {| status_code := 500;
                  detail := PDict [("message", PStr "Internal server error")] |}).
Proof. split; reflexivity. Qed.

(** * Further properties of the handlers *)

(** ** The string validators *)

(** The validators of the request and response models that strip a
    string all follow one pattern; these are its two facts. *)
Lemma strip_validator_none (v : string) :
  (if str_falsy v || str_falsy (strip v) then None else Some (strip v)) = None
  <-> all_space v = true.
Proof.
  rewrite blank_test, <- strip_blank_iff.
  destruct (str_falsy (strip v)) eqn:Hf.
  - apply str_falsy_empty in Hf. split; intros _; [exact Hf | reflexivity].
  - apply str_falsy_false in Hf. split; [discriminate | intros H; contradiction].
Qed.

Lemma strip_validator_some (v s : string) :
  (if str_falsy v || str_falsy (strip v) then None else Some (strip v)) = Some s ->
  s = strip v /\ s <> "" /\ strip s = s.
Proof.
  rewrite blank_test. destruct (str_falsy (strip v)) eqn:Hf; [discriminate|].
  intros [= <-]. apply str_falsy_false in Hf.
  split; [reflexivity|]. split; [exact Hf | apply strip_idempotent].
Qed.

Lemma strip_validator_fixed (s : string) :
  s <> "" -> strip s = s ->
  (if str_falsy s || str_falsy (strip s) then None else Some (strip s)) = Some s.
Proof.
  intros Hne Hs. rewrite blank_test, Hs.
  destruct (str_falsy s) eqn:Hf; [|reflexivity].
  apply str_falsy_empty in Hf. contradiction.
Qed.

(** Every string validator of the models refuses exactly the strings
    made of whitespace only (the empty string among them), whitespace
    being what Python's [str.isspace] accepts: a no-break space is
    blank, too. *)
Theorem validators_reject_exactly_blank (u : unicode_data) (v : string) :
  (send_task.validate_text v = None <-> all_space v = true) /\
  (keep_alive.validate_message v = None <-> all_space v = true) /\
  (keep_alive.validate_session_id v = None <-> all_space v = true) /\
  (create_session_token.validate_session_id v = None <-> all_space v = true) /\
  (list_avatars.validate_message v = None <-> all_space v = true) /\
  (list_avatars.validate_status u v = None <-> all_space v = true).
Proof.
  repeat match goal with |- _ /\ _ => split end; try apply strip_validator_none.
  - unfold send_task.validate_text. cbv zeta. rewrite <- strip_blank_iff.
    destruct (str_falsy (strip v)) eqn:Hf.
    + apply str_falsy_empty in Hf. split; intros _; [exact Hf | reflexivity].
    + apply str_falsy_false in Hf. split; [discriminate | intros H; contradiction].
  - rewrite validate_status_spec, <- strip_blank_iff.
    destruct (str_falsy (strip v)) eqn:Hf.
    + apply str_falsy_empty in Hf. split; intros _; [exact Hf | reflexivity].
    + apply str_falsy_false in Hf. split; [discriminate | intros H; contradiction].
Qed.

(** A string accepted by one of the validators that only strip is a
    fixed point of that validator: validating it again, as happens when
    a response model is re-validated, returns it unchanged. *)
Theorem validators_idempotent (v s : string) :
  (send_task.validate_text v = Some s -> send_task.validate_text s = Some s) /\
  (keep_alive.validate_message v = Some s -> keep_alive.validate_message s = Some s) /\
  (keep_alive.validate_session_id v = Some s ->
   keep_alive.validate_session_id s = Some s) /\
  (create_session_token.validate_session_id v = Some s ->
   create_session_token.validate_session_id s = Some s) /\
  (list_avatars.validate_message v = Some s -> list_avatars.validate_message s = Some s).
Proof.
  assert (Hgen : forall f : string -> option string,
            (forall x, f x = if str_falsy x || str_falsy (strip x)
                             then None else Some (strip x)) ->
            f v = Some s -> f s = Some s).
  { intros f Hf H. rewrite Hf in H |- *.
    destruct (strip_validator_some _ _ H) as (_ & Hne & Hfix).
    apply strip_validator_fixed; assumption. }
  repeat match goal with |- _ /\ _ => split end; try (apply Hgen; reflexivity).
  apply Hgen. intros x. unfold send_task.validate_text. cbv zeta.
  rewrite blank_test. reflexivity.
Qed.

Lemma validators_idempotent_witness :
  keep_alive.validate_message (bytes [194; 160; 111; 107; 32]%nat) = Some "ok" /\
  keep_alive.validate_message "ok" = Some "ok" /\
  send_task.validate_text "hi" = Some "hi".
Proof.
  split; [reflexivity|]. split.
  - apply (validators_idempotent (bytes [194; 160; 111; 107; 32]%nat) "ok"). reflexivity.
  - apply (validators_idempotent "  hi  " "hi"). reflexivity.
Defined.

Lemma validators_reject_exactly_blank_witness :
  send_task.validate_text (bytes [32; 194; 160; 9]%nat) = None /\
  list_avatars.validate_status sample_unicode (bytes [194; 133]%nat) = None.
Proof.
  split.
  - apply (validators_reject_exactly_blank sample_unicode (bytes [32; 194; 160; 9]%nat)).
    reflexivity.
  - apply (validators_reject_exactly_blank sample_unicode (bytes [194; 133]%nat)).
    reflexivity.
Defined.

(** ** More on error translation *)

(** An exception that matches none of a handler's clauses is answered
    with the handler's fixed 500: nothing of the exception, neither its
    text nor its attributes, reaches the caller. *)
Theorem unmatched_exception_answered_generically (i : invocation) (e : exn) :
  reaches_upstream i = true ->
  first_match (clauses (handler_of i)) e = None ->
  raises i (Raised e) = Some (generic_error (handler_of i)).
Proof.
  intros Hup.
  destruct i; simpl in Hup |- *;
    try (unfold new_sessions.create_streaming_session;
         destruct (validate_new_session_request request); [discriminate|]; simpl);
    unfold_chains; unfold first_match; simpl;
    split_isinstance e; simpl; intros H; first [discriminate | reflexivity].
Qed.

Lemma unmatched_exception_answered_generically_witness :
  raises (I_list_avatars no_coercion sample_unicode)
    (Raised {| isinstance := fun _ => false; str := "db password is hunter2";
               attr_status_code := Some 418; attr_details := Some (PStr "secret") |})
  = Some {| status_code := 500;
            detail := PDict [("message", PStr "Internal server error")] |}.
Proof.
  exact (unmatched_exception_answered_generically (I_list_avatars no_coercion sample_unicode)
           {| isinstance := fun _ => false; str := "db password is hunter2";
              attr_status_code := Some 418; attr_details := Some (PStr "secret") |}
           eq_refl eq_refl).
Defined.

(** When the upstream call returns and the handler fails all the same
    (the payload does not fit the response model), the error is the
    handler's fixed 500, whatever the payload was. *)
Theorem malformed_payload_answered_generically
    (i : invocation) (response : pyval) (x : HTTPException) :
  reaches_upstream i = true ->
  raises i (Returned response) = Some x ->
  x = generic_error (handler_of i).
Proof.
  intros Hup.
  destruct i; simpl in Hup |- *;
    try (unfold new_sessions.create_streaming_session;
         destruct (validate_new_session_request request); [discriminate|]; simpl);
    unfold or_unexpected;
    repeat match goal with
           | |- context [match ?b with Some _ => _ | None => _ end] => destruct b; simpl
           end;
    try discriminate; intros [= <-]; reflexivity.
Qed.

Lemma malformed_payload_answered_generically_witness :
  {| status_code := 500; detail := PStr "An unexpected error occurred" |}
  = generic_error H_keep_alive.
Proof.
  exact (malformed_payload_answered_generically (I_keep_alive no_coercion "s1")
           (PDict [("code", PInt (-1))])
           {| status_code := 500; detail := PStr "An unexpected error occurred" |}
           eq_refl eq_refl).
Defined.

(** A payload that is not a dict: the handlers that build a response
    model from it answer their fixed 500; the others do not look at it
    and raise nothing. *)
Theorem non_dict_payload (i : invocation) (response : pyval) :
  reaches_upstream i = true ->
  is_dict response = false ->
  raises i (Returned response)
  = if normalises (handler_of i) then Some (generic_error (handler_of i)) else None.
Proof.
  intros Hup Hd.
  destruct response; try discriminate;
    destruct i; simpl in Hup |- *;
    try (unfold new_sessions.create_streaming_session;
         destruct (validate_new_session_request request); [discriminate|]; simpl);
    reflexivity.
Qed.

Lemma non_dict_payload_witness :
  raises (I_list_sessions_history no_coercion None None 10 0) (Returned PNone)
  = Some {| status_code := 500;
            detail := PDict [("message", PStr "Internal server error")] |}.
Proof.
  exact (non_dict_payload (I_list_sessions_history no_coercion None None 10 0) PNone
           eq_refl eq_refl).
Defined.

(** An exception that is an instance of none of [HeyGenValidationError],
    [NotFoundError], [SessionNotFoundError] and pydantic's
    [ValidationError] gets the same status from all ten handlers: 401
    for an [AuthenticationError], else 429 for a [RateLimitError], else
    its own [status_code] (500 without one) for a [ServerError] or
    [HeyGenAPIError], else 500. *)
Theorem handlers_agree_on_common_kinds (i : invocation) (e : exn) (x : HTTPException) :
  reaches_upstream i = true ->
  isinstance e HeyGenValidationError = false ->
  isinstance e NotFoundError = false ->
  isinstance e SessionNotFoundError = false ->
  isinstance e ValidationError = false ->
  raises i (Raised e) = Some x ->
  status_code x =
    if isinstance e AuthenticationError then 401
    else if isinstance e RateLimitError then 429
    else if isinstance e ServerError || isinstance e HeyGenAPIError
         then getattr_status_code e
    else 500.
Proof.
  intros Hup Hv Hn Hs Hp.
  destruct i; simpl in Hup |- *;
    try (unfold new_sessions.create_streaming_session;
         destruct (validate_new_session_request request); [discriminate|]; simpl);
    unfold_chains; rewrite ?Hv, ?Hn, ?Hs, ?Hp;
    intros [= <-];
    destruct (isinstance e AuthenticationError), (isinstance e RateLimitError),
      (isinstance e ServerError), (isinstance e HeyGenAPIError); reflexivity.
Qed.

Lemma handlers_agree_on_common_kinds_witness :
  status_code {| status_code := 503; detail := PStr "upstream down" |} = 503.
Proof.
  exact (handlers_agree_on_common_kinds (I_close_session "s1")
           {| isinstance := fun c => match c with
                                     | ServerError | HeyGenAPIError => true
                                     | _ => false
                                     end;
              str := "upstream down"; attr_status_code := Some 503;
              attr_details := None |}
           {| status_code := 503; detail := PStr "upstream down" |}
           eq_refl eq_refl eq_refl eq_refl eq_refl eq_refl).
Defined.

(** The first clause wins.  In the six handlers that start with
    [except HeyGenValidationError], such an exception is answered 400
    with its text and its details (an empty dict without any), whatever
    else it is an instance of and whatever [status_code] it carries; in
    the four others the same holds of [AuthenticationError] and 401. *)
Theorem first_clause_takes_precedence (i : invocation) (e : exn) :
  reaches_upstream i = true ->
  (structured_handler (handler_of i) = true ->
   isinstance e HeyGenValidationError = true ->
   raises i (Raised e)
   = Some {| status_code := 400;
             detail := PDict [("message", PStr (str e));
                              ("details", getattr_details e)] |}) /\
  (structured_handler (handler_of i) = false ->
   isinstance e AuthenticationError = true ->
   raises i (Raised e) = Some {| status_code := 401; detail := PStr (str e) |}).
Proof.
  intros Hup.
  destruct i; simpl in Hup |- *;
    try (unfold new_sessions.create_streaming_session;
         destruct (validate_new_session_request request); [discriminate|]; simpl);
    unfold_chains;
    (split; intros Hs He; [|try discriminate Hs]; try discriminate Hs;
     rewrite He; reflexivity).
Qed.

Lemma first_clause_takes_precedence_witness :
  raises (I_send_task {| send_task.session_id := "s1"; send_task.text := "hi";
                         send_task.task_mode := send_task.SYNC;
                         send_task.task_type := send_task.REPEAT |})
    (Raised {| isinstance := fun _ => true; str := "text too long";
               attr_status_code := Some 503; attr_details := None |})
  = Some {| status_code := 400;
            detail := PDict [("message", PStr "text too long"); ("details", PDict [])] |}.
Proof.
  apply (first_clause_takes_precedence
           (I_send_task {| send_task.session_id := "s1"; send_task.text := "hi";
                           send_task.task_mode := send_task.SYNC;
                           send_task.task_type := send_task.REPEAT |})
           {| isinstance := fun _ => true; str := "text too long";
              attr_status_code := Some 503; attr_details := None |} eq_refl);
    reflexivity.
Defined.

(** ** Request validation at the routes *)





(** A [limit] below 1 or above 100, or a negative [offset], is answered
    422 and no upstream call is made. *)
Theorem history_rejects_out_of_range (lax : lax_coercions)
    (heygen_client : list_sessions_history.history_call -> outcome)
    (start_time end_time limit offset : option Z) :
  (exists n, limit = Some n /\ (n < 1 \/ 100 < n)) \/
  (exists n, offset = Some n /\ n < 0) ->
  list_sessions_history.route lax heygen_client start_time end_time limit offset
  = ([], RequestValidationError).
Proof.
  unfold list_sessions_history.route, Query.
  intros [(n & -> & Hn) | (n & -> & Hn)].
  - replace ((1 <=? n) && (n <=? 100)) with false; [reflexivity|].
    symmetry. apply andb_false_iff. rewrite !Z.leb_gt. lia.
  - replace ((0 <=? n) && true) with false.
    + destruct limit as [l|]; [destruct (_ && _)|]; reflexivity.
    + symmetry. apply andb_false_iff. left. apply Z.leb_gt. lia.
Qed.

Lemma history_rejects_out_of_range_witness :
  list_sessions_history.route no_coercion (fun _ => Returned (PDict [])) None None
    (Some 0) None
  = ([], RequestValidationError).
Proof.
  apply history_rejects_out_of_range. left. exists 0. split; [reflexivity | lia].
Defined.

(** [send_task] accepts only the task modes ["sync"] and ["async"] and
    the task types ["repeat"] and ["chat"]: a body with any other value
    under either key is answered 422 without an upstream call. *)
Theorem send_task_rejects_unknown_enum_values
    (heygen_client : send_task.SendTaskRequest -> outcome)
    (d : list (string * pyval)) (v : pyval) :
  (dict_lookup "task_mode" d = Some v /\ v <> PStr "sync" /\ v <> PStr "async") \/
  (dict_lookup "task_type" d = Some v /\ v <> PStr "repeat" /\ v <> PStr "chat") ->
  send_task.route heygen_client (PDict d) = ([], RequestValidationError).
Proof.
  intros H.
  assert (Hnone : send_task.SendTaskRequest_validate (PDict d) = None);
    [|unfold send_task.route; rewrite Hnone; reflexivity].
  unfold send_task.SendTaskRequest_validate. cbn [validate_dict mbind option_bind].
  destruct (dict_lookup "session_id" d) as [sv|]; [|reflexivity].
  cbn [mbind option_bind].
  destruct (validate_str sv) as [sid|]; [|reflexivity]. cbn [mbind option_bind].
  destruct (dict_lookup "text" d) as [tv|]; [|reflexivity]. cbn [mbind option_bind].
  destruct (validate_str tv) as [t|]; [|reflexivity]. cbn [mbind option_bind].
  destruct (if (1 <=? String.length t)%nat then send_task.validate_text t else None)
    as [t'|]; [|reflexivity]. cbn [mbind option_bind].
  destruct H as [(Hv & H1 & H2) | (Hv & H1 & H2)]; rewrite Hv.
  - destruct v as [| | |s| |]; try reflexivity. simpl.
    unfold send_task.TaskMode_of_value.
    destruct (String.eqb_spec s "sync") as [->|_]; [contradiction|].
    destruct (String.eqb_spec s "async") as [->|_]; [contradiction|]. reflexivity.
  - destruct (match dict_lookup "task_mode" d with Some _ => _ | None => _ end);
      [|reflexivity]. cbn [mbind option_bind].
    destruct v as [| | |s| |]; try reflexivity. simpl.
    unfold send_task.TaskType_of_value.
    destruct (String.eqb_spec s "repeat") as [->|_]; [contradiction|].
    destruct (String.eqb_spec s "chat") as [->|_]; [contradiction|]. reflexivity.
Qed.

Lemma send_task_rejects_unknown_enum_values_witness :
  send_task.route (fun _ => Returned PNone)
    (PDict [("session_id", PStr "s1"); ("text", PStr "hi"); ("task_mode", PStr "SYNC")])
  = ([], RequestValidationError).
Proof.
  apply (send_task_rejects_unknown_enum_values _ _ (PStr "SYNC")).
  left. repeat split; discriminate.
Defined.


(** ** More on the normalisation of lists *)

Section MoreNormalisation.

Context (lax : lax_coercions).

(** On a list of dicts the history comprehension is a filter followed
    by a map: the entries that have both ["session_id"] and
    ["created_at"] are normalised, in their order, and the others,
    whichever key they lack, are skipped. *)
Theorem history_comprehension_filters_then_maps (sessions : list pyval) :
  Forall (fun s => is_dict s = true) sessions ->
  list_sessions_history.comprehension lax sessions
  = mapM (list_sessions_history.history_item lax) (List.filter has_required_keys sessions).
Proof. exact (comprehension_filter_map lax sessions). Qed.

(** The history list never has more items than the payload has
    entries. *)
Lemma comprehension_length (sessions : list pyval)
    (items : list list_sessions_history.SessionHistoryInfo) :
  list_sessions_history.comprehension lax sessions = Some items ->
  (length items <= length sessions)%nat.
Proof.
  revert items. induction sessions as [|session rest IH]; intros items; simpl.
  - intros [= <-]. reflexivity.
  - destruct (list_sessions_history.keeps session) as [[]|]; simpl; [| |discriminate].
    + destruct (list_sessions_history.history_item lax session); simpl; [|discriminate].
      destruct (list_sessions_history.comprehension lax rest) as [items'|];
        simpl; [|discriminate].
      intros [= <-]. simpl. specialize (IH items' eq_refl). lia.
    + intros H. specialize (IH items H). lia.
Qed.

(** The leniency of the history comprehension covers missing keys
    only: one entry that cannot be tested for its keys, or that has
    them but does not fit the model, fails the whole comprehension. *)
Lemma comprehension_fails (sessions : list pyval) (session : pyval) :
  session ∈ sessions ->
  list_sessions_history.keeps session = None \/
  (list_sessions_history.keeps session = Some true /\
   list_sessions_history.history_item lax session = None) ->
  list_sessions_history.comprehension lax sessions = None.
Proof.
  intros Hin Hbad. induction sessions as [|s rest IH].
  - apply elem_of_nil in Hin. contradiction.
  - apply elem_of_cons in Hin as [<- | Hin]; simpl.
    + destruct Hbad as [-> | [-> ->]]; reflexivity.
    + rewrite (IH Hin).
      destruct (list_sessions_history.keeps s) as [[]|]; simpl; [|reflexivity..].
      destruct (list_sessions_history.history_item lax s); reflexivity.
Qed.

End MoreNormalisation.

(** [list_sessions_history] answers 200 with at most as many items as
    the payload has entries, each of them the normalisation of an entry
    that has both required keys. *)
Theorem history_items_come_from_entries (lax : lax_coercions)
    (heygen_client : list_sessions_history.history_call -> outcome)
    (start_time end_time : option Z) (limit offset : Z) (response : pyval)
    (status : Z) (body : list_sessions_history.ListSessionsHistoryResponse) :
  heygen_client {| list_sessions_history.call_start_time := start_time;
                   list_sessions_history.call_end_time := end_time;
                   list_sessions_history.call_limit := limit;
                   list_sessions_history.call_offset := offset |}
  = Returned response ->
  snd (list_sessions_history.list_sessions_history lax heygen_client
         start_time end_time limit offset) = Success status body ->
  status = 200 /\
  exists entries,
    payload_entries response = Some entries /\
    (length (list_sessions_history.data body) <= length entries)%nat /\
    (forall info, info ∈ list_sessions_history.data body ->
       exists session, session ∈ entries /\
         list_sessions_history.keeps session = Some true /\
         list_sessions_history.history_item lax session = Some info) /\
    list_sessions_history.limit (list_sessions_history.pagination body) = limit /\
    list_sessions_history.offset (list_sessions_history.pagination body) = offset.
Proof.
  intros Hret Hok.
  destruct (list_sessions_history_success lax _ _ _ _ _ _ _ _ Hret Hok)
    as (entries & Hentries & Hcomp).
  revert Hok. unfold list_sessions_history.list_sessions_history. cbv zeta.
  rewrite Hret. simpl. unfold or_unexpected.
  destruct (list_sessions_history.build lax response limit offset) as [b|] eqn:Hb;
    [|discriminate].
  intros [= <- <-]. split; [reflexivity|].
  exists entries. split; [exact Hentries|].
  split; [apply (comprehension_length lax _ _ Hcomp)|].
  split.
  - intros info Hin.
    pose proof (comprehension_items lax entries _ Hcomp) as Hall.
    rewrite Forall_forall in Hall. exact (Hall info Hin).
  - revert Hb. unfold list_sessions_history.build.
    repeat bind_step. intros [= <-]. split; reflexivity.
Qed.

Lemma history_items_come_from_entries_witness :
  200 = 200 /\
  exists entries,
    payload_entries (PDict [("data", PList [PDict [("session_id", PStr "s1")]])])
    = Some entries /\ (0 <= length entries)%nat.
Proof.
  destruct (history_items_come_from_entries no_coercion
              (fun _ => Returned (PDict [("data", PList [PDict [("session_id", PStr "s1")]])]))
              None None 10 0 _ 200
              {| list_sessions_history.code := 100;
                 list_sessions_history.message := "Success";
                 list_sessions_history.data := [];
                 list_sessions_history.pagination :=
                   {| list_sessions_history.total := 0;
                      list_sessions_history.limit := 10;
                      list_sessions_history.offset := 0;
                      list_sessions_history.has_more := false |} |}
              eq_refl eq_refl) as (Hs & entries & He & Hlen & _).
  split; [exact Hs|]. exists entries. split; [exact He | exact Hlen].
Defined.

(** ** Entries that fail the whole request *)

Section FailingEntries.

Context (lax : lax_coercions) (u : unicode_data).

Lemma history_build_fails (response : pyval) (entries : list pyval) (limit offset : Z) :
  payload_entries response = Some entries ->
  list_sessions_history.comprehension lax entries = None ->
  list_sessions_history.build lax response limit offset = None.
Proof.
  unfold payload_entries, list_sessions_history.build.
  destruct response as [| | | | |d]; try discriminate.
  cbn [py_get mbind option_bind].
  intros Hiter Hcomp. rewrite Hiter. cbn [mbind option_bind]. rewrite Hcomp. reflexivity.
Qed.

Lemma active_build_fails (response : pyval) (entries : list pyval) :
  payload_entries response = Some entries ->
  mapM (list_sessions_active.session_item lax) entries = None ->
  list_sessions_active.build lax response = None.
Proof.
  unfold payload_entries, list_sessions_active.build.
  destruct response as [| | | | |d]; try discriminate.
  cbn [py_get mbind option_bind].
  intros Hiter Hmap. rewrite Hiter. cbn [mbind option_bind]. rewrite Hmap. reflexivity.
Qed.

Lemma avatars_build_fails (response : pyval) (entries : list pyval) :
  payload_entries response = Some entries ->
  mapM (list_avatars.avatar_item lax u) entries = None ->
  list_avatars.build lax u response = None.
Proof.
  unfold payload_entries, list_avatars.build.
  destruct response as [| | | | |d]; try discriminate.
  cbn [py_get mbind option_bind].
  intros Hiter Hmap. rewrite Hiter. cbn [mbind option_bind]. rewrite Hmap. reflexivity.
Qed.

Lemma session_item_needs_keys (d : list (string * pyval)) :
  dict_lookup "session_id" d = None \/ dict_lookup "created_at" d = None ->
  list_sessions_active.session_item lax (PDict d) = None.
Proof.
  unfold list_sessions_active.session_item, list_sessions_active.SessionInfo_new,
    py_get_none, py_get. cbn [mbind option_bind].
  intros [H | H]; rewrite H; [reflexivity|].
  destruct (dict_lookup "session_id" d) as [[]|], (dict_lookup "status" d) as [[]|];
    reflexivity.
Qed.

Lemma avatar_item_needs_keys (d : list (string * pyval)) :
  dict_lookup "avatar_id" d = None \/ dict_lookup "created_at" d = None ->
  list_avatars.avatar_item lax u (PDict d) = None.
Proof.
  unfold list_avatars.avatar_item, list_avatars.AvatarInfo_new,
    py_get_none, py_get. cbn [mbind option_bind].
  intros [H | H]; rewrite H; [reflexivity|].
  destruct (dict_lookup "avatar_id" d) as [[]|]; reflexivity.
Qed.

Lemma history_item_needs_str_id (d : list (string * pyval)) (v : pyval) :
  dict_lookup "session_id" d = Some v ->
  (forall s, v <> PStr s) ->
  list_sessions_history.history_item lax (PDict d) = None.
Proof.
  intros Hv Hns.
  unfold list_sessions_history.history_item,
    list_sessions_history.SessionHistoryInfo_new, py_getitem.
  rewrite Hv. cbn [mbind option_bind].
  destruct (dict_lookup "created_at" d); [|reflexivity]. cbn [mbind option_bind py_get_none py_get].
  destruct v; try reflexivity. exfalso. apply (Hns s). reflexivity.
Qed.

End FailingEntries.

(** [list_sessions_history] forgives a missing key and nothing else:
    if one entry of the payload is [None], a boolean or an integer, or
    is a dict with a ["created_at"] whose ["session_id"] is not a
    string, the whole request is answered 500 with the fixed message,
    wherever the entry stands and whatever the other entries are. *)
Theorem history_malformed_entry_fails_request (lax : lax_coercions)
    (heygen_client : list_sessions_history.history_call -> outcome)
    (start_time end_time : option Z) (limit offset : Z)
    (response : pyval) (entries : list pyval) (session : pyval) :
  heygen_client {| list_sessions_history.call_start_time := start_time;
                   list_sessions_history.call_end_time := end_time;
                   list_sessions_history.call_limit := limit;
                   list_sessions_history.call_offset := offset |}
  = Returned response ->
  payload_entries response = Some entries ->
  session ∈ entries ->
  (session = PNone \/ (exists b, session = PBool b) \/ (exists n, session = PInt n) \/
   exists d v, session = PDict d /\ dict_lookup "session_id" d = Some v /\
               (forall s, v <> PStr s) /\ is_Some (dict_lookup "created_at" d)) ->
  snd (list_sessions_history.list_sessions_history lax heygen_client
         start_time end_time limit offset)
  = HTTPError {| status_code := 500;
                 detail := PDict [("message", PStr "Internal server error")] |}.
Proof.
  intros Hret Hentries Hin Hbad.
  unfold list_sessions_history.list_sessions_history. cbv zeta. rewrite Hret. simpl.
  rewrite (history_build_fails lax response entries limit offset Hentries); [reflexivity|].
  apply (comprehension_fails lax entries session Hin).
  destruct Hbad as [-> | [[b ->] | [[n ->] | (d & v & -> & Hv & Hns & [c Hc])]]];
    [left; reflexivity..|].
  right. split.
  - unfold list_sessions_history.keeps. simpl. rewrite Hv, Hc. reflexivity.
  - apply (history_item_needs_str_id lax d v Hv Hns).
Qed.

Lemma history_malformed_entry_fails_request_witness :
  snd (list_sessions_history.list_sessions_history no_coercion
         (fun _ => Returned
            (PDict [("data", PList [PDict [("session_id", PStr "s1");
                                           ("created_at", PInt 10)];
                                    PDict [("session_id", PInt 7);
                                           ("created_at", PInt 20)]])]))
         None None 10 0)
  = HTTPError {| status_code := 500;
                 detail := PDict [("message", PStr "Internal server error")] |}.
Proof.
  eapply (history_malformed_entry_fails_request no_coercion _ None None 10 0
            (PDict [("data", PList [PDict [("session_id", PStr "s1");
                                           ("created_at", PInt 10)];
                                    PDict [("session_id", PInt 7);
                                           ("created_at", PInt 20)]])])
            [PDict [("session_id", PStr "s1"); ("created_at", PInt 10)];
             PDict [("session_id", PInt 7); ("created_at", PInt 20)]]
            (PDict [("session_id", PInt 7); ("created_at", PInt 20)]) eq_refl eq_refl).
  - apply list_elem_of_In. right. left. reflexivity.
  - right. right. right. exists [("session_id", PInt 7); ("created_at", PInt 20)], (PInt 7).
    repeat split; [discriminate | eexists; reflexivity].
Defined.

(** Unlike the history handler, [list_sessions_active] and
    [list_avatars] skip nothing: one entry without its identifier
    (["session_id"], ["avatar_id"]) or without ["created_at"] makes the
    whole request fail with the fixed 500. *)
Theorem active_and_avatar_lists_forgive_nothing (lax : lax_coercions) (u : unicode_data)
    (heygen_client : unit -> outcome) (response : pyval) (entries : list pyval)
    (d : list (string * pyval)) :
  heygen_client tt = Returned response ->
  payload_entries response = Some entries ->
  PDict d ∈ entries ->
  (dict_lookup "session_id" d = None \/ dict_lookup "created_at" d = None ->
   snd (list_sessions_active.list_sessions_active lax heygen_client)
   = HTTPError {| status_code := 500;
                  detail := PDict [("message", PStr "Internal server error")] |}) /\
  (dict_lookup "avatar_id" d = None \/ dict_lookup "created_at" d = None ->
   snd (list_avatars.list_avatars lax u heygen_client)
   = HTTPError {| status_code := 500;
                  detail := PDict [("message", PStr "Internal server error")] |}).
Proof.
  intros Hret Hentries Hin. split; intros Hd.
  - unfold list_sessions_active.list_sessions_active. rewrite Hret. simpl.
    rewrite (active_build_fails lax response entries Hentries); [reflexivity|].
    apply mapM_None_2, Exists_exists. exists (PDict d).
    split; [exact Hin | apply session_item_needs_keys; exact Hd].
  - unfold list_avatars.list_avatars. rewrite Hret. simpl.
    rewrite (avatars_build_fails lax u response entries Hentries); [reflexivity|].
    apply mapM_None_2, Exists_exists. exists (PDict d).
    split; [exact Hin | apply avatar_item_needs_keys; exact Hd].
Qed.

Lemma active_and_avatar_lists_forgive_nothing_witness :
  snd (list_sessions_active.list_sessions_active no_coercion
         (fun _ => Returned
            (PDict [("data", PList [PDict [("session_id", PStr "s1");
                                           ("created_at", PInt 10)];
                                    PDict [("created_at", PInt 20)]])])))
  = HTTPError {| status_code := 500;
                 detail := PDict [("message", PStr "Internal server error")] |}.
Proof.
  eapply (active_and_avatar_lists_forgive_nothing no_coercion sample_unicode _
            (PDict [("data", PList [PDict [("session_id", PStr "s1");
                                           ("created_at", PInt 10)];
                                    PDict [("created_at", PInt 20)]])])
            [PDict [("session_id", PStr "s1"); ("created_at", PInt 10)];
             PDict [("created_at", PInt 20)]]
            [("created_at", PInt 20)] eq_refl eq_refl).
  - apply list_elem_of_In. right. left. reflexivity.
  - left. reflexivity.
Defined.

(** A successful [list_avatars] or [list_sessions_active] answers 200
    with exactly one item per entry of the payload. *)
Theorem lists_keep_every_entry (lax : lax_coercions) (u : unicode_data)
    (heygen_client : unit -> outcome) (response : pyval) (entries : list pyval) :
  heygen_client tt = Returned response ->
  payload_entries response = Some entries ->
  (forall status body,
     snd (list_avatars.list_avatars lax u heygen_client) = Success status body ->
     status = 200 /\ length (list_avatars.data body) = length entries) /\
  (forall status body,
     snd (list_sessions_active.list_sessions_active lax heygen_client)
     = Success status body ->
     status = 200 /\ length (list_sessions_active.data body) = length entries).
Proof.
  intros Hret Hentries. split; intros status body Hok.
  - destruct (list_avatars_success lax u _ _ _ _ Hret Hok) as (entries' & He & Hall).
    rewrite Hentries in He. injection He as <-.
    split; [|symmetry; exact (Forall2_length _ _ _ Hall)].
    revert Hok. unfold list_avatars.list_avatars. rewrite Hret. simpl.
    unfold or_unexpected. destruct (list_avatars.build lax u response); [|discriminate].
    intros [= <- _]. reflexivity.
  - destruct (list_sessions_active_success lax _ _ _ _ Hret Hok) as (entries' & He & Hall).
    rewrite Hentries in He. injection He as <-.
    split; [|symmetry; exact (Forall2_length _ _ _ Hall)].
    revert Hok. unfold list_sessions_active.list_sessions_active. rewrite Hret. simpl.
    unfold or_unexpected. destruct (list_sessions_active.build lax response);
      [|discriminate].
    intros [= <- _]. reflexivity.
Qed.

Lemma lists_keep_every_entry_witness :
  200 = 200 /\
  length [ {| list_avatars.avatar_id := "av1"; list_avatars.created_at := 10;
              list_avatars.is_public := false; list_avatars.status := "INACTIVE" |} ]
  = 1%nat.
Proof.
  destruct (lists_keep_every_entry no_coercion sample_unicode
              (fun _ => Returned
                 (PDict [("data", PList [PDict [("avatar_id", PStr "av1");
                                                ("created_at", PInt 10);
                                                ("is_public", PBool false);
                                                ("status", PStr "inactive")]])]))
              (PDict [("data", PList [PDict [("avatar_id", PStr "av1");
                                             ("created_at", PInt 10);
                                             ("is_public", PBool false);
                                             ("status", PStr "inactive")]])])
              [PDict [("avatar_id", PStr "av1"); ("created_at", PInt 10);
                      ("is_public", PBool false); ("status", PStr "inactive")]]
              eq_refl eq_refl) as [Havatars _].
  exact (Havatars 200
           {| list_avatars.code := 100; list_avatars.message := "Success";
              list_avatars.data :=
                [ {| list_avatars.avatar_id := "av1"; list_avatars.created_at := 10;
                     list_avatars.is_public := false;
                     list_avatars.status := "INACTIVE" |} ] |} eq_refl).
Defined.

(** ** Invariants of the responses *)

(** Whatever the upstream payload, a [keep_alive] that succeeds answers
    200 with a code that is not negative and a message that is not
    empty and has no surrounding whitespace. *)
Theorem keep_alive_response_invariants (lax : lax_coercions)
    (heygen_client : string -> outcome) (session_id : string)
    (status : Z) (body : keep_alive.KeepAliveResponse) :
  snd (keep_alive.keep_alive lax heygen_client session_id) = Success status body ->
  status = 200 /\
  0 <= keep_alive.code body /\
  keep_alive.message body <> "" /\
  strip (keep_alive.message body) = keep_alive.message body.
Proof.
  unfold keep_alive.keep_alive. simpl.
  destruct (heygen_client session_id) as [response|e]; [|discriminate].
  unfold or_unexpected.
  destruct (keep_alive.build lax response) as [b|] eqn:Hb; [|discriminate].
  intros [= <- <-]. split; [reflexivity|].
  revert Hb. unfold keep_alive.build.
  do 3 bind_step.
  unfold keep_alive.validate_code at 1.
  destruct (z <? 0) eqn:Hneg; simpl; [discriminate|].
  bind_step.
  match goal with
  | |- mbind _ (keep_alive.validate_message ?m) = Some _ -> _ =>
      destruct (keep_alive.validate_message m) as [m'|] eqn:Hm; simpl; [|discriminate]
  end.
  intros [= <-]. simpl.
  apply Z.ltb_ge in Hneg.
  destruct (strip_validator_some _ _ Hm) as (_ & Hne & Hfix).
  auto.
Qed.

Lemma keep_alive_response_invariants_witness :
  200 = 200 /\ 0 <= 0 /\ "ok" <> "" /\ strip "ok" = "ok".
Proof.
  exact (keep_alive_response_invariants no_coercion
           (fun _ => Returned (PDict [("message", PStr "  ok ")])) "s1" 200
           {| keep_alive.code := 0; keep_alive.message := "ok" |} eq_refl).
Defined.

(** [keep_alive] on a payload with an integer or absent ["code"] and a
    string or absent ["message"]: a negative code or a blank message is
    answered 500; otherwise the answer carries the code (0 if absent)
    and the stripped message (the fixed text if absent). *)
Theorem keep_alive_normalises_payload (lax : lax_coercions)
    (heygen_client : string -> outcome) (session_id : string)
    (d : list (string * pyval)) (c : Z) (m : string) :
  heygen_client session_id = Returned (PDict d) ->
  (dict_lookup "code" d = None /\ c = 0) \/ dict_lookup "code" d = Some (PInt c) ->
  (dict_lookup "message" d = None /\ m = "Keep-alive signal sent successfully") \/
  dict_lookup "message" d = Some (PStr m) ->
  snd (keep_alive.keep_alive lax heygen_client session_id)
  = if (c <? 0) || all_space m
    then HTTPError {| status_code := 500; detail := PStr "An unexpected error occurred" |}
    else Success 200 {| keep_alive.code := c; keep_alive.message := strip m |}.
Proof.
  intros Hret Hc Hm.
  unfold keep_alive.keep_alive. rewrite Hret. simpl.
  assert (Hcode : py_get (PDict d) "code" (PInt 0) = Some (PInt c)).
  { unfold py_get. destruct Hc as [[-> ->] | ->]; reflexivity. }
  assert (Hmsg : py_get (PDict d) "message" (PStr "Keep-alive signal sent successfully")
                 = Some (PStr m)).
  { unfold py_get. destruct Hm as [[-> ->] | ->]; reflexivity. }
  unfold keep_alive.build. rewrite Hcode, Hmsg. cbn [mbind option_bind validate_int].
  unfold keep_alive.validate_code.
  destruct (c <? 0); [reflexivity|]. cbn [mbind option_bind validate_str orb].
  destruct (all_space m) eqn:Hsp.
  - apply strip_validator_none in Hsp. unfold keep_alive.validate_message.
    rewrite Hsp. reflexivity.
  - destruct (keep_alive.validate_message m) as [m'|] eqn:Hv.
    + apply strip_validator_some in Hv as (-> & _). reflexivity.
    + apply strip_validator_none in Hv. congruence.
Qed.

Lemma keep_alive_normalises_payload_witness :
  snd (keep_alive.keep_alive no_coercion (fun _ => Returned (PDict [("code", PInt (-1))]))
         "s1")
  = HTTPError {| status_code := 500; detail := PStr "An unexpected error occurred" |}.
Proof.
  apply (keep_alive_normalises_payload no_coercion _ "s1" [("code", PInt (-1))] (-1)
           "Keep-alive signal sent successfully" eq_refl).
  - right. reflexivity.
  - left. split; reflexivity.
Defined.

(** Whatever the upstream payload, a [list_avatars] that succeeds
    answers 200 with a code that is not negative, a message that is not
    empty and has no surrounding whitespace, and avatars whose status
    is the upper-cased form of a string that is not empty and has no
    surrounding whitespace. *)
Theorem list_avatars_response_invariants (lax : lax_coercions) (u : unicode_data)
    (heygen_client : unit -> outcome)
    (status : Z) (body : list_avatars.ListAvatarsResponse) :
  snd (list_avatars.list_avatars lax u heygen_client) = Success status body ->
  status = 200 /\
  0 <= list_avatars.code body /\
  list_avatars.message body <> "" /\
  strip (list_avatars.message body) = list_avatars.message body /\
  forall info, info ∈ list_avatars.data body ->
    exists t, t <> "" /\ strip t = t /\
              (forall c, first_point t = Some c \/ last_point t = Some c ->
                         isspace c = false) /\
              list_avatars.status info = upper u t.
Proof.
  unfold list_avatars.list_avatars. simpl.
  destruct (heygen_client tt) as [response|e]; [|discriminate].
  unfold or_unexpected.
  destruct (list_avatars.build lax u response) as [b|] eqn:Hb; [|discriminate].
  intros [= <- <-]. split; [reflexivity|]. revert Hb. unfold list_avatars.build.
  do 4 bind_step.
  match goal with
  | |- mbind _ (mapM _ ?l) = Some _ -> _ =>
      destruct (mapM (list_avatars.avatar_item lax u) l) as [items|] eqn:Hitems;
      simpl; [|discriminate]
  end.
  bind_step.
  unfold list_avatars.validate_code at 1.
  destruct (z <? 0) eqn:Hneg; simpl; [discriminate|].
  bind_step.
  match goal with
  | |- mbind _ (list_avatars.validate_message ?m) = Some _ -> _ =>
      destruct (list_avatars.validate_message m) as [m'|] eqn:Hm; simpl; [|discriminate]
  end.
  intros [= <-]. simpl.
  apply Z.ltb_ge in Hneg.
  destruct (strip_validator_some _ _ Hm) as (_ & Hne & Hfix).
  repeat match goal with |- _ /\ _ => split end; try assumption.
  intros info Hin.
  apply mapM_Some_1 in Hitems.
  destruct (proj1 (list_elem_of_lookup items info) Hin) as [k Hk].
  destruct (Forall2_lookup_r _ _ _ _ _ Hitems Hk) as (entry & _ & Hitem).
  assert (Hdict : exists d', entry = PDict d').
  { destruct entry; try discriminate Hitem. eexists; reflexivity. }
  destruct Hdict as [d' ->].
  destruct (avatar_item_status lax u d' info Hitem) as (s' & _ & Hs' & ->).
  exists (strip s'). split; [exact Hs'|]. split; [apply strip_idempotent|].
  split; [apply strip_ends | reflexivity].
Qed.

Lemma list_avatars_response_invariants_witness :
  exists t, t <> "" /\ strip t = t /\ "ACTIVE" = upper sample_unicode t.
Proof.
  destruct (list_avatars_response_invariants no_coercion sample_unicode
              (fun _ => Returned
                 (PDict [("data", PList [PDict [("avatar_id", PStr "av1");
                                                ("created_at", PInt 10);
                                                ("status", PStr " active ")]])]))
              200
              {| list_avatars.code := 100; list_avatars.message := "Success";
                 list_avatars.data :=
                   [ {| list_avatars.avatar_id := "av1"; list_avatars.created_at := 10;
                        list_avatars.is_public := true;
                        list_avatars.status := "ACTIVE" |} ] |} eq_refl)
    as (_ & _ & _ & _ & Hall).
  destruct (Hall {| list_avatars.avatar_id := "av1"; list_avatars.created_at := 10;
                    list_avatars.is_public := true; list_avatars.status := "ACTIVE" |})
    as (t & Hne & Hfix & _ & Hst).
  - apply list_elem_of_In. left. reflexivity.
  - exists t. split; [exact Hne|]. split; [exact Hfix | exact Hst].
Defined.

(** ** Pagination and tokens *)

(** The [total] and [has_more] of the history answer are the upstream
    payload's (0 and [False] where it has none): [has_more] is passed
    on, not computed from [total], [limit] and [offset]. *)
Theorem history_pagination_from_upstream (lax : lax_coercions)
    (heygen_client : list_sessions_history.history_call -> outcome)
    (start_time end_time : option Z) (limit offset : Z)
    (d : list (string * pyval)) (status : Z)
    (body : list_sessions_history.ListSessionsHistoryResponse) :
  heygen_client {| list_sessions_history.call_start_time := start_time;
                   list_sessions_history.call_end_time := end_time;
                   list_sessions_history.call_limit := limit;
                   list_sessions_history.call_offset := offset |}
  = Returned (PDict d) ->
  snd (list_sessions_history.list_sessions_history lax heygen_client
         start_time end_time limit offset) = Success status body ->
  let p := list_sessions_history.pagination body in
  (dict_lookup "pagination" d = None ->
   list_sessions_history.total p = 0 /\ list_sessions_history.has_more p = false) /\
  (forall pag, dict_lookup "pagination" d = Some (PDict pag) ->
     (dict_lookup "total" pag = None -> list_sessions_history.total p = 0) /\
     (forall t, dict_lookup "total" pag = Some (PInt t) ->
                list_sessions_history.total p = t) /\
     (dict_lookup "has_more" pag = None -> list_sessions_history.has_more p = false) /\
     (forall h, dict_lookup "has_more" pag = Some (PBool h) ->
                list_sessions_history.has_more p = h)).
Proof.
  intros Hret. unfold list_sessions_history.list_sessions_history. cbv zeta.
  rewrite Hret. simpl. unfold or_unexpected.
  destruct (list_sessions_history.build lax (PDict d) limit offset) as [b|] eqn:Hb;
    [|discriminate].
  intros [= _ <-]. revert Hb. unfold list_sessions_history.build.
  simpl.
  do 2 bind_step.
  destruct (dict_lookup "pagination" d) as [pv|].
  - destruct pv as [| | | | |pag]; try discriminate.
    simpl.
    destruct (dict_lookup "total" pag) as [tv|] eqn:Ht,
      (dict_lookup "has_more" pag) as [hv|] eqn:Hh;
      repeat bind_step; intros [= <-]; simpl;
      (split; [discriminate|]); intros pag' [= <-];
      repeat match goal with |- _ /\ _ => split end;
      try discriminate; intros; simplify_eq; simpl in *; congruence.
  - simpl. repeat bind_step.
    intros [= <-]. simpl.
    split; [intros _; simpl in *; split; congruence | discriminate].
Qed.

Lemma history_pagination_from_upstream_witness :
  list_sessions_history.has_more
    {| list_sessions_history.total := 3; list_sessions_history.limit := 10;
       list_sessions_history.offset := 0; list_sessions_history.has_more := true |}
  = true.
Proof.
  destruct (history_pagination_from_upstream no_coercion
              (fun _ => Returned
                 (PDict [("pagination", PDict [("total", PInt 3);
                                               ("has_more", PBool true)])]))
              None None 10 0
              [("pagination", PDict [("total", PInt 3); ("has_more", PBool true)])]
              200
              {| list_sessions_history.code := 100;
                 list_sessions_history.message := "Success";
                 list_sessions_history.data := [];
                 list_sessions_history.pagination :=
                   {| list_sessions_history.total := 3;
                      list_sessions_history.limit := 10;
                      list_sessions_history.offset := 0;
                      list_sessions_history.has_more := true |} |}
              eq_refl eq_refl) as [_ Hp].
  destruct (Hp [("total", PInt 3); ("has_more", PBool true)] eq_refl) as (_ & _ & _ & Hh).
  exact (Hh true eq_refl).
Defined.

(** [create_session_token] returns the upstream token as it is: for a
    payload whose ["data"] is a dict with a string ["token"] and whose
    ["error"] is absent, [None] or a dict, the answer is 201 with that
    token and that error; a ["token"] that is not a string is answered
    500. *)
Theorem token_returned_as_received
    (heygen_client : string -> option Z -> outcome)
    (session_id : string) (expires_in : option Z)
    (d data : list (string * pyval)) (v : pyval) :
  heygen_client session_id expires_in = Returned (PDict d) ->
  dict_lookup "data" d = Some (PDict data) ->
  dict_lookup "token" data = Some v ->
  (forall t err,
     v = PStr t -> error_of_payload d = Some err ->
     snd (create_session_token.create_session_token heygen_client session_id expires_in)
     = Success 201 {| create_session_token.token := t;
                      create_session_token.error := err |}) /\
  ((forall t, v <> PStr t) ->
   snd (create_session_token.create_session_token heygen_client session_id expires_in)
   = HTTPError {| status_code := 500; detail := PStr "An unexpected error occurred" |}).
Proof.
  intros Hret Hdata Htoken.
  unfold create_session_token.create_session_token. rewrite Hret.
  unfold create_session_token.build, py_get_none, py_get. rewrite Hdata.
  cbn [mbind option_bind]. rewrite Htoken. cbn [mbind option_bind snd].
  split.
  - intros t err -> Herr. unfold error_of_payload in Herr. cbn [validate_str mbind option_bind].
    destruct (dict_lookup "error" d) as [[]|]; simpl in Herr |- *;
      first [discriminate | injection Herr as <-; reflexivity].
  - intros Hns. destruct v; try reflexivity. exfalso. apply (Hns s). reflexivity.
Qed.

Lemma token_returned_as_received_witness :
  snd (create_session_token.create_session_token
         (fun _ _ => Returned (PDict [("data", PDict [("token", PStr "tok-1")])]))
         "abc" (Some 3600))
  = Success 201 {| create_session_token.token := "tok-1";
                   create_session_token.error := None |}.
Proof.
  apply (token_returned_as_received _ "abc" (Some 3600)
           [("data", PDict [("token", PStr "tok-1")])] [("token", PStr "tok-1")]
           (PStr "tok-1") eq_refl eq_refl eq_refl); reflexivity.
Defined.

(** The [CreateTokenRequest] model accepts an integer [expires_in]
    exactly when it lies in [60, 86400] and the session id is not
    blank, and stores the stripped id; without [expires_in] it stores
    [None], not 3600. *)
Theorem CreateTokenRequest_bounds (lax : lax_coercions)
    (d : list (string * pyval)) (sid : string) :
  dict_lookup "session_id" d = Some (PStr sid) ->
  (forall n, dict_lookup "expires_in" d = Some (PInt n) ->
     create_session_token.CreateTokenRequest_validate lax (PDict d)
     = if negb (all_space sid) && (60 <=? n) && (n <=? 86400)
       then Some {| create_session_token.session_id := strip sid;
                    create_session_token.expires_in := Some n |}
       else None) /\
  (dict_lookup "expires_in" d = None ->
   create_session_token.CreateTokenRequest_validate lax (PDict d)
   = if all_space sid then None
     else Some {| create_session_token.session_id := strip sid;
                  create_session_token.expires_in := None |}).
Proof.
  intros Hsid.
  assert (Hv : create_session_token.validate_session_id sid
               = if all_space sid then None else Some (strip sid)).
  { destruct (all_space sid) eqn:Hsp.
    - apply strip_validator_none. exact Hsp.
    - destruct (create_session_token.validate_session_id sid) as [s|] eqn:Hs.
      + apply strip_validator_some in Hs as (-> & _). reflexivity.
      + apply strip_validator_none in Hs. congruence. }
  unfold create_session_token.CreateTokenRequest_validate.
  cbn [validate_dict mbind option_bind]. rewrite Hsid.
  cbn [validate_str mbind option_bind]. rewrite Hv.
  split.
  - intros n ->. destruct (all_space sid); [reflexivity|].
    cbn [mbind option_bind validate_optional validate_int negb andb].
    destruct ((60 <=? n) && (n <=? 86400)); reflexivity.
  - intros ->. destruct (all_space sid); reflexivity.
Qed.

Lemma CreateTokenRequest_bounds_witness :
  create_session_token.CreateTokenRequest_validate no_coercion
    (PDict [("session_id", PStr " abc "); ("expires_in", PInt 86400)])
  = Some {| create_session_token.session_id := "abc";
            create_session_token.expires_in := Some 86400 |}.
Proof.
  destruct (CreateTokenRequest_bounds no_coercion
              [("session_id", PStr " abc "); ("expires_in", PInt 86400)] " abc " eq_refl)
    as [Hint _].
  exact (Hint 86400 eq_refl).
Defined.



Lemma history_comprehension_filters_then_maps_witness :
  list_sessions_history.comprehension no_coercion
    [PDict [("session_id", PStr "s1")]; PDict [("created_at", PInt 2)];
     PDict [("session_id", PStr "s3"); ("created_at", PInt 3)]]
  = mapM (list_sessions_history.history_item no_coercion)
      [PDict [("session_id", PStr "s3"); ("created_at", PInt 3)]].
Proof.
  apply (history_comprehension_filters_then_maps no_coercion
           [PDict [("session_id", PStr "s1")]; PDict [("created_at", PInt 2)];
            PDict [("session_id", PStr "s3"); ("created_at", PInt 3)]]).
  repeat constructor.
Defined.

(** ** What reaches the upstream client *)



(** When [validate_new_session_request] raises,
    [create_streaming_session] makes no upstream call and answers
    through its [except] clauses; a pydantic [ValidationError] that is
    an instance of no class named by an earlier clause is answered 422
    with the fixed message and the error text as details. *)
Theorem create_streaming_session_local_validation
    (validate_new_session_request : pyval -> option exn)
    (heygen_client : pyval -> outcome) (request : pyval) (e : exn) :
  validate_new_session_request request = Some e ->
  fst (new_sessions.create_streaming_session validate_new_session_request
         heygen_client request) = [] /\
  snd (new_sessions.create_streaming_session validate_new_session_request
         heygen_client request)
  = HTTPError (new_sessions.create_streaming_session_except e) /\
  (isinstance e HeyGenValidationError = false ->
   isinstance e AuthenticationError = false ->
   isinstance e NotFoundError = false ->
   isinstance e ValidationError = true ->
   new_sessions.create_streaming_session_except e
   = {| status_code := 422;
        detail := PDict [("message", PStr "Validation error");
                         ("details", PStr (str e))] |}).
Proof.
  intros Hv. unfold new_sessions.create_streaming_session. rewrite Hv.
  repeat split.
  intros H1 H2 H3 H4. unfold new_sessions.create_streaming_session_except.
  rewrite H1, H2, H3, H4. reflexivity.
Qed.

Lemma create_streaming_session_local_validation_witness :
  fst (new_sessions.create_streaming_session
         (fun _ => Some (exn_of ValidationError "voice: field required"))
         (fun _ => Returned PNone) (PDict [])) = [].
Proof.
  apply (create_streaming_session_local_validation
           (fun _ => Some (exn_of ValidationError "voice: field required"))
           (fun _ => Returned PNone) (PDict [])
           (exn_of ValidationError "voice: field required") eq_refl).
Defined.
